(** * Syna: a shallow embedding of [syna.py]

    The development follows the source file class by class:
    [ProcessingMode], [ProcessingResult], [BilateralProcessor],
    [CorpusCallosum], [EnhancedSyna] and [TaskOptimizer].

    Conventions.
    - A Python [float] is the rational it denotes ([Q]); NaN and the
      infinities are outside the model.  [x > y] is [gtb x y].
    - A Python exception is a value of [Exception]; code that may raise
      returns [Exception + A].
    - The names [syna.py] uses without binding them (the two strategy
      classes, [ModeSelector], [ConflictResolver], [PatternIntegrator])
      are looked up in an explicit table of module globals; the private
      methods [CorpusCallosum] calls on [self] without defining them are
      the fields of [CallosumMethods]. *)

From Stdlib Require Import QArith Qminmax Lqa.
From Stdlib Require Import Ascii String.
From stdpp Require Import base option list strings gmap.

Open Scope Q_scope.

(** ** Numbers *)

Abbreviation pyfloat := Q.

(** Python's [x > y] on floats. *)
Definition gtb (x y : pyfloat) : bool := negb (Qle_bool x y).

(** ** Data model *)

(** [class ProcessingMode(Enum)] *)
Inductive ProcessingMode := DIVERGENT | CONVERGENT | BILATERAL.

(** [@dataclass class ProcessingResult]: a plain dataclass, no
    [__post_init__], so no field is validated on construction. *)
Record ProcessingResult := mkResult {
  insights : list string;
  confidence : pyfloat;
  processing_path : list string;
  resource_usage : pyfloat;
  novelty_score : pyfloat
}.

(** ** Exceptions *)

Inductive Exception :=
  | NameError (name : string)
  | AttributeError (attribute : string)
  | TypeError (message : string)
  | StrategyError (message : string).

(** A computation that returns or raises. *)
Definition Py (A : Type) : Type := (Exception + A)%type.

#[global] Instance py_ret : MRet Py := fun A a => inr a.
#[global] Instance py_bind : MBind Py :=
  fun A B k x => match x with inl e => inl e | inr a => k a end.

Definition raise {A : Type} (e : Exception) : Py A := inl e.

(** What a caller gets back: the value, if the call returned. *)
Definition returned {A : Type} (x : Py A) : option A :=
  match x with inl _ => None | inr a => Some a end.

(** ** Values exchanged with the collaborators *)

(** Modelled from the spec: the profile [ModeSelector.analyze_task]
    returns; the class is not in the source.  Three attributes, each a
    real number. *)
Record TaskProfile := mkProfile {
  complexity : pyfloat;
  creativity_required : pyfloat;
  analysis_required : pyfloat
}.

(** Modelled from the spec: one element of the synergy set that
    [PatternIntegrator.find_synergies] returns; the class is not in the
    source.  A pair of insights, one from each side, its strength, and
    the insight synthesized from the pair when there is one. *)
Record Synergy := mkSynergy {
  divergent_insight : string;
  convergent_insight : string;
  synergy_strength : pyfloat;
  synthesized : option string
}.

(** Modelled from the spec: the resolution outcomes of a conflict. *)
Inductive Resolution := KeepDivergent | KeepConvergent | Qualify | DropBoth.

(** Modelled from the spec: one element of what
    [ConflictResolver.resolve] returns; the class is not in the source. *)
Record Conflict := mkConflict {
  conflict_divergent : string;
  conflict_convergent : string;
  conflict_penalty : pyfloat;
  resolution : Resolution
}.

(** ** Module globals *)

(** What a global name of the module can be bound to.  [Bound] stands
    for the imports and classes [syna.py] binds itself; the other
    constructors are the classes it only refers to, each given by the
    methods the source calls on its instances. *)
Inductive PyObject :=
  | Bound
  | Strategy (process_thought : string -> Py ProcessingResult)
  | ModeSelector (analyze_task : string -> TaskProfile)
                 (select_mode : TaskProfile -> ProcessingMode)
  | ConflictResolver
      (resolve : ProcessingResult -> ProcessingResult -> list Conflict)
  | PatternIntegrator
      (find_synergies : ProcessingResult -> ProcessingResult -> list Synergy).

(** The global names [syna.py] binds when it is imported: its four
    import statements and its eight class statements, and nothing else. *)
Definition syna_globals : gmap string PyObject :=
  list_to_map
    [ ("Enum", Bound); ("auto", Bound); ("dataclass", Bound);
      ("asyncio", Bound); ("List", Bound); ("Dict", Bound);
      ("Tuple", Bound); ("Optional", Bound);
      ("ProcessingMode", Bound); ("ProcessingResult", Bound);
      ("BilateralProcessor", Bound); ("CorpusCallosum", Bound);
      ("EnhancedSyna", Bound); ("TaskOptimizer", Bound);
      ("BilateralSynapse", Bound); ("BilateralNetwork", Bound) ]%string.

(** The module with the five missing classes supplied from outside. *)
Definition with_collaborators
    (divergent convergent mode_selector conflict_resolver
       pattern_integrator : PyObject) : gmap string PyObject :=
  <["DivergentProcessor"%string := divergent]>
    (<["ConvergentProcessor"%string := convergent]>
       (<["ModeSelector"%string := mode_selector]>
          (<["ConflictResolver"%string := conflict_resolver]>
             (<["PatternIntegrator"%string := pattern_integrator]>
                syna_globals)))).

(** Evaluation of a global name: an unbound name raises [NameError]. *)
Definition load_global (g : gmap string PyObject) (name : string)
    : Py PyObject :=
  match g !! name with
  | Some o => mret o
  | None => raise (NameError name)
  end.

(** [Name()]: the name is evaluated, then called without arguments.
    The source defines none of the collaborator classes, so a binding in
    the globals stands for the class together with the instance its
    constructor returns: the call itself is taken to return, and an
    instance is the table of the class's methods, without identity or
    state of its own.  Only the lookup can fail here. *)
Definition new (g : gmap string PyObject) (name : string) : Py PyObject :=
  load_global g name.

(** *** Method calls on collaborator instances *)

Definition call_process_thought (o : PyObject) (input_data : string)
    : Py ProcessingResult :=
  match o with
  | Strategy f => f input_data
  | _ => raise (AttributeError "process_thought")
  end.

Definition call_analyze_task (o : PyObject) (input_data : string)
    : Py TaskProfile :=
  match o with
  | ModeSelector analyze _ => mret (analyze input_data)
  | _ => raise (AttributeError "analyze_task")
  end.

Definition call_select_mode (o : PyObject) (task_profile : TaskProfile)
    : Py ProcessingMode :=
  match o with
  | ModeSelector _ select => mret (select task_profile)
  | _ => raise (AttributeError "select_mode")
  end.

Definition call_find_synergies (o : PyObject) (d c : ProcessingResult)
    : Py (list Synergy) :=
  match o with
  | PatternIntegrator f => mret (f d c)
  | _ => raise (AttributeError "find_synergies")
  end.

Definition call_resolve (o : PyObject) (d c : ProcessingResult)
    : Py (list Conflict) :=
  match o with
  | ConflictResolver f => mret (f d c)
  | _ => raise (AttributeError "resolve")
  end.

(** ** CorpusCallosum *)

(** The five private methods [integrate_results] calls on [self].  The
    class body in the source does not define them; they are taken as
    given, with the parameters the call sites pass. *)
Record CallosumMethods := mkMethods {
  _merge_insights : list string -> list string -> list Synergy -> list string;
  _calculate_confidence : list Synergy -> list Conflict -> pyfloat;
  _combine_paths : list string -> list string -> list string;
  _calculate_resource_usage : pyfloat -> pyfloat -> pyfloat;
  _calculate_novelty : pyfloat -> pyfloat -> list Synergy -> pyfloat
}.

Module CorpusCallosum.

Record t := mk {
  synergy_threshold : pyfloat;
  conflict_resolver : PyObject;
  pattern_integrator : PyObject;
  methods : CallosumMethods
}.

(** [CorpusCallosum.__init__] *)
Definition __init__ (g : gmap string PyObject) (m : CallosumMethods)
    : Py t :=
  let synergy_threshold := 0.6 in
  conflict_resolver ← new g "ConflictResolver";
  pattern_integrator ← new g "PatternIntegrator";
  mret (mk synergy_threshold conflict_resolver pattern_integrator m).

(** [CorpusCallosum.integrate_results] *)
Definition integrate_results (self : t)
    (divergent_result convergent_result : ProcessingResult)
    : Py ProcessingResult :=
  synergies ← call_find_synergies (pattern_integrator self)
                 divergent_result convergent_result;
  resolved_conflicts ← call_resolve (conflict_resolver self)
                 divergent_result convergent_result;
  let integrated_insights :=
    _merge_insights (methods self) (insights divergent_result)
      (insights convergent_result) synergies in
  mret {|
    insights := integrated_insights;
    confidence :=
      _calculate_confidence (methods self) synergies resolved_conflicts;
    processing_path :=
      _combine_paths (methods self) (processing_path divergent_result)
        (processing_path convergent_result);
    resource_usage :=
      _calculate_resource_usage (methods self)
        (resource_usage divergent_result)
        (resource_usage convergent_result);
    novelty_score :=
      _calculate_novelty (methods self) (novelty_score divergent_result)
        (novelty_score convergent_result) synergies
  |}.

End CorpusCallosum.

(** ** Tasks *)

(** The two tasks [process_thought] creates. *)
Inductive TaskId := DivergentTask | ConvergentTask.

(** What an execution does that the claims speak about. *)
Inductive Event :=
  | TaskCreated (task : TaskId)
  | IntegrateCalled (divergent_result convergent_result : ProcessingResult).

(** An [async def]: the events of its execution, and how it ends. *)
Definition Task (A : Type) : Type := (list Event * Py A)%type.

#[global] Instance task_ret : MRet Task := fun A a => ([], inr a).
#[global] Instance task_bind : MBind Task :=
  fun A B k x =>
    match x with
    | (tr, inl e) => (tr, inl e)
    | (tr, inr a) => let '(tr', r) := k a in (tr ++ tr', r)
    end.

Definition emit (e : Event) : Task unit := ([e], inr tt).
Definition lift {A : Type} (x : Py A) : Task A := ([], x).

Definition trace_of {A : Type} (x : Task A) : list Event := fst x.
Definition outcome {A : Type} (x : Task A) : Py A := snd x.

(** Which of the two tasks finishes first: the one thing the event loop
    decides. *)
Inductive Completion := DivergentFirst | ConvergentFirst.

(** [asyncio.create_task(obj.process_thought(input_data))]: the method
    is looked up and called at once, which only builds the coroutine;
    the task is its eventual outcome. *)
Definition create_task (id : TaskId) (o : PyObject) (input_data : string)
    : Task (Py ProcessingResult) :=
  match o with
  | Strategy f => _ ← emit (TaskCreated id); mret (f input_data)
  | _ => lift (raise (AttributeError "process_thought"))
  end.

(** [await asyncio.gather(divergent_task, convergent_task)] with the
    default [return_exceptions=False]: the children are examined as they
    finish, the first exception is raised in the awaiting caller at
    once, and when both have finished their results are returned in the
    order of the arguments. *)
Definition gather (order : Completion)
    (divergent_task convergent_task : Py ProcessingResult)
    : Py (ProcessingResult * ProcessingResult) :=
  match order with
  | DivergentFirst =>
      d ← divergent_task; c ← convergent_task; mret (d, c)
  | ConvergentFirst =>
      c ← convergent_task; d ← divergent_task; mret (d, c)
  end.

(** ** BilateralProcessor *)

Module BilateralProcessor.

Record t := mk {
  divergent : PyObject;
  convergent : PyObject;
  corpus_callosum : CorpusCallosum.t;
  integration_threshold : pyfloat
}.

(** [BilateralProcessor.__init__] *)
Definition __init__ (g : gmap string PyObject) (m : CallosumMethods)
    : Py t :=
  divergent ← new g "DivergentProcessor";
  convergent ← new g "ConvergentProcessor";
  corpus_callosum ← CorpusCallosum.__init__ g m;
  mret (mk divergent convergent corpus_callosum 0.7).

(** [BilateralProcessor.process_thought] *)
Definition process_thought (order : Completion) (self : t)
    (input_data : string) : Task ProcessingResult :=
  divergent_task ← create_task DivergentTask (divergent self) input_data;
  convergent_task ← create_task ConvergentTask (convergent self) input_data;
  results ← lift (gather order divergent_task convergent_task);
  let '(d_result, c_result) := results in
  _ ← emit (IntegrateCalled d_result c_result);
  integrated_result ←
    lift (CorpusCallosum.integrate_results (corpus_callosum self)
            d_result c_result);
  mret integrated_result.

End BilateralProcessor.

(** ** EnhancedSyna *)

Module EnhancedSyna.

Record t := mk {
  divergent : PyObject;
  convergent : PyObject;
  bilateral : BilateralProcessor.t;
  mode_selector : PyObject;
  current_mode : ProcessingMode
}.

(** [EnhancedSyna.__init__] *)
Definition __init__ (g : gmap string PyObject) (m : CallosumMethods)
    : Py t :=
  divergent ← new g "DivergentProcessor";
  convergent ← new g "ConvergentProcessor";
  bilateral ← BilateralProcessor.__init__ g m;
  mode_selector ← new g "ModeSelector";
  mret (mk divergent convergent bilateral mode_selector BILATERAL).

(** [EnhancedSyna.process_input] *)
Definition process_input (order : Completion) (self : t)
    (input_data : string) : Task ProcessingResult :=
  task_profile ← lift (call_analyze_task (mode_selector self) input_data);
  optimal_mode ← lift (call_select_mode (mode_selector self) task_profile);
  match optimal_mode with
  | BILATERAL =>
      BilateralProcessor.process_thought order (bilateral self) input_data
  | DIVERGENT => lift (call_process_thought (divergent self) input_data)
  | CONVERGENT => lift (call_process_thought (convergent self) input_data)
  end.

(** [EnhancedSyna().process_input(input_data)]: the method is reached
    through an instance, and an instance through the constructor. *)
Definition run (g : gmap string PyObject) (m : CallosumMethods)
    (order : Completion) (input_data : string) : Task ProcessingResult :=
  self ← lift (__init__ g m);
  process_input order self input_data.

End EnhancedSyna.

(** ** TaskOptimizer *)

Module TaskOptimizer.

(** [TaskOptimizer.optimize_processing] *)
Definition optimize_processing (task : string)
    (complexity creativity_required analysis_required : pyfloat)
    : ProcessingMode :=
  if gtb creativity_required 0.7 && gtb analysis_required 0.7 then BILATERAL
  else if gtb creativity_required analysis_required then DIVERGENT
  else CONVERGENT.

End TaskOptimizer.

(** The selection policy in the words of the specification: three
    mutually exclusive branches, the first on a strict double threshold,
    the second on a strict comparison, the last taking everything else. *)
Inductive mode_policy (creativity analysis : pyfloat)
    : ProcessingMode -> Prop :=
  | policy_bilateral :
      0.7 < creativity -> 0.7 < analysis ->
      mode_policy creativity analysis BILATERAL
  | policy_divergent :
      ~ (0.7 < creativity /\ 0.7 < analysis) -> analysis < creativity ->
      mode_policy creativity analysis DIVERGENT
  | policy_convergent :
      ~ (0.7 < creativity /\ 0.7 < analysis) -> creativity <= analysis ->
      mode_policy creativity analysis CONVERGENT.

(** ** The integration formulas of the specification *)

(** Modelled from the spec: [clamp01], named in the confidence and
    novelty formulas and defined nowhere in the source: the nearest
    point of the interval from 0 to 1. *)
Definition clamp01 (x : pyfloat) : pyfloat := Qmax 0 (Qmin 1 x).

Definition sum_floats (xs : list pyfloat) : pyfloat := foldr Qplus 0 xs.

(** Modelled from the spec: [total_synergy_bonus], the sum of the
    synergy strengths at 0.1 per unit, capped at 0.3 in total. *)
Definition total_synergy_bonus (synergies : list Synergy) : pyfloat :=
  Qmin 0.3 (0.1 * sum_floats (synergy_strength <$> synergies)).

(** Modelled from the spec: [total_conflict_penalty], the sum of the
    conflict penalties scaled and capped in the same way. *)
Definition total_conflict_penalty (conflicts : list Conflict) : pyfloat :=
  Qmin 0.3 (0.1 * sum_floats (conflict_penalty <$> conflicts)).

(** Modelled from the spec: [combined_confidence] of the integration
    algorithm, step 4, with the average of the two input confidences. *)
Definition combined_confidence (d_confidence c_confidence : pyfloat)
    (synergies : list Synergy) (conflicts : list Conflict) : pyfloat :=
  clamp01 ((d_confidence + c_confidence) / 2
           + total_synergy_bonus synergies
           - total_conflict_penalty conflicts).

(** Modelled from the spec: a body for [_calculate_confidence], missing
    from the source, on the two arguments the source passes.  The bonus,
    the penalty and the clamp are the spec's; the average of the input
    confidences, which the method is not given, is a fixed [base]. *)
Definition calculate_confidence_spec (base : pyfloat)
    (synergies : list Synergy) (conflicts : list Conflict) : pyfloat :=
  clamp01 (base + total_synergy_bonus synergies
           - total_conflict_penalty conflicts).

(** One step of the merge: an insight is appended unless an equal one
    is already there. *)
Definition add_new (acc : list string) (x : string) : list string :=
  if decide (x ∈ acc) then acc else acc ++ [x].

Definition synthesized_insights (synergies : list Synergy) : list string :=
  omap synthesized synergies.

(** Modelled from the spec: a body for [_merge_insights], missing from
    the source: the divergent insights in their order, then the
    convergent insights not already present, then the synthesized
    synergy insights. *)
Definition merge_insights_spec (d_insights c_insights : list string)
    (synergies : list Synergy) : list string :=
  foldl add_new d_insights c_insights ++ synthesized_insights synergies.

(** Modelled from the spec: the insights a resolution drops.  Keeping
    one side drops the other; a qualified statement drops neither. *)
Definition dropped_by (k : Conflict) : list string :=
  match resolution k with
  | KeepDivergent => [conflict_convergent k]
  | KeepConvergent => [conflict_divergent k]
  | Qualify => []
  | DropBoth => [conflict_divergent k; conflict_convergent k]
  end.

Definition dropped_insights (conflicts : list Conflict) : list string :=
  conflicts ≫= dropped_by.

(** Modelled from the spec: the merged sequence of the integration
    algorithm, step 3, in full: the merge above minus every insight
    dropped by conflict resolution. *)
Definition merged_minus_dropped (d_insights c_insights : list string)
    (synergies : list Synergy) (conflicts : list Conflict) : list string :=
  filter (fun x => x ∉ dropped_insights conflicts)
    (merge_insights_spec d_insights c_insights synergies).

(** Modelled from the spec: a body for [_combine_paths], missing from
    the source: both paths, then an integration marker. *)
Definition combine_paths_spec (marker : string)
    (d_path c_path : list string) : list string :=
  d_path ++ c_path ++ [marker].

(** Modelled from the spec: a body for [_calculate_resource_usage],
    missing from the source: the sum of both usages and a fixed
    overhead. *)
Definition calculate_resource_usage_spec (overhead : pyfloat)
    (d_usage c_usage : pyfloat) : pyfloat :=
  d_usage + c_usage + overhead.

(** Modelled from the spec: a body for [_calculate_novelty], missing
    from the source.  The spec names the bonus and gives no formula for
    it, so the bonus is a parameter. *)
Definition calculate_novelty_spec
    (synergy_novelty_bonus : list Synergy -> pyfloat)
    (d_novelty c_novelty : pyfloat) (synergies : list Synergy) : pyfloat :=
  clamp01 (Qmax d_novelty c_novelty + synergy_novelty_bonus synergies).

(** The five bodies together. *)
Definition spec_methods (base overhead : pyfloat) (marker : string)
    (synergy_novelty_bonus : list Synergy -> pyfloat) : CallosumMethods :=
  {| _merge_insights := merge_insights_spec;
     _calculate_confidence := calculate_confidence_spec base;
     _combine_paths := combine_paths_spec marker;
     _calculate_resource_usage := calculate_resource_usage_spec overhead;
     _calculate_novelty := calculate_novelty_spec synergy_novelty_bonus |}.

(** The invariant the specification states for a result handed to a
    caller. *)
Definition well_formed (r : ProcessingResult) : Prop :=
  processing_path r <> [] /\ 0 <= confidence r <= 1.

(** ** Results as objects

    The functions above take a [ProcessingResult] as the tuple of its
    field values and the collaborators as functions of such values.  In
    Python a result is an object, its two lists are objects of their
    own, and so are [self] and the two detectors; all of them can be
    written to, and the detectors and the private methods are calls of
    code that is not in the source and can do so.  This module keeps the
    objects in a store and gives every such call the store to read,
    write and extend. *)
Module Heap.

Definition loc := nat.

(** A result object holds references to its two lists. *)
Record ResultCell := mkCell {
  cell_insights : loc;
  cell_confidence : pyfloat;
  cell_processing_path : loc;
  cell_resource_usage : pyfloat;
  cell_novelty_score : pyfloat
}.

(** The objects of a run.  A [CallosumObject] is an instance of
    [CorpusCallosum] with the three attributes [__init__] sets; a
    [ForeignObject] is an instance of a class that is not in the source,
    its attributes abstracted to a number. *)
Inductive object :=
  | ListObject (items : list string)
  | ResultObject (cell : ResultCell)
  | CallosumObject (synergy_threshold : pyfloat)
      (conflict_resolver pattern_integrator : loc)
  | ForeignObject (state : nat).

(** The store; a new object takes the next free address. *)
Definition heap := list object.

(** A computation on the store that returns or raises. *)
Definition St (A : Type) : Type := heap -> Py (A * heap).

#[global] Instance st_ret : MRet St := fun A a h => inr (a, h).
#[global] Instance st_bind : MBind St :=
  fun A B k x h =>
    match x h with
    | inl e => inl e
    | inr (a, h') => k a h'
    end.

Definition throw {A : Type} (e : Exception) : St A := fun _ => inl e.

Definition alloc (o : object) : St loc :=
  fun h => inr (length h, h ++ [o]).

Definition load (l : loc) : St object :=
  fun h =>
    match h !! l with
    | Some o => inr (o, h)
    | None => inl (TypeError "no object")
    end.

(** Assignment to an object that exists. *)
Definition store (l : loc) (o : object) : St unit :=
  fun h => inr (tt, <[l := o]> h).


(** [result.name] *)
Definition result_attr {A : Type} (name : string) (field : ResultCell -> A)
    (l : loc) : St A :=
  o ← load l;
  match o with
  | ResultObject cell => mret (field cell)
  | _ => throw (AttributeError name)
  end.

(** [self.pattern_integrator] and [self.conflict_resolver] *)
Definition attr_pattern_integrator (self : loc) : St loc :=
  o ← load self;
  match o with
  | CallosumObject _ _ pattern_integrator => mret pattern_integrator
  | _ => throw (AttributeError "pattern_integrator")
  end.

Definition attr_conflict_resolver (self : loc) : St loc :=
  o ← load self;
  match o with
  | CallosumObject _ conflict_resolver _ => mret conflict_resolver
  | _ => throw (AttributeError "conflict_resolver")
  end.


(** The two methods the source calls on the detectors.  Their classes
    are not in the source: each method is whatever computation on the
    store its class makes it, given the detector it is called on and
    the two result objects. *)
Record Detectors := mkDetectors {
  find_synergies : loc -> loc -> loc -> St (list Synergy);
  resolve : loc -> loc -> loc -> St (list Conflict)
}.

(** The private methods of [CorpusCallosum], each as the class has it:
    [None] when the class does not define it, otherwise a computation
    on the store given [self] and the arguments of the call site. *)
Record CallosumClass := mkClass {
  _merge_insights : option (loc -> loc -> loc -> list Synergy -> St loc);
  _calculate_confidence :
    option (loc -> list Synergy -> list Conflict -> St pyfloat);
  _combine_paths : option (loc -> loc -> loc -> St loc);
  _calculate_resource_usage : option (loc -> pyfloat -> pyfloat -> St pyfloat);
  _calculate_novelty :
    option (loc -> pyfloat -> pyfloat -> list Synergy -> St pyfloat)
}.

(** The class as the source has it: [__init__] and [integrate_results]
    and none of the five. *)
Definition as_written : CallosumClass := mkClass None None None None None.

(** [self.name], for a method [name]. *)
Definition getattr {T : Type} (name : string) (method : option T) : St T :=
  match method with
  | Some f => mret f
  | None => throw (AttributeError name)
  end.

(** [CorpusCallosum.integrate_results] on objects.  Python evaluates
    the callee of a call before its arguments, the arguments from left
    to right, and the keyword arguments of [ProcessingResult(...)] in
    the order they are written. *)
Definition integrate_results (cls : CallosumClass) (det : Detectors)
    (self divergent_result convergent_result : loc) : St loc :=
  pattern_integrator ← attr_pattern_integrator self;
  synergies ← find_synergies det pattern_integrator
                 divergent_result convergent_result;
  conflict_resolver ← attr_conflict_resolver self;
  resolved_conflicts ← resolve det conflict_resolver
                         divergent_result convergent_result;
  merge ← getattr "_merge_insights" (_merge_insights cls);
  d_insights ← result_attr "insights" cell_insights divergent_result;
  c_insights ← result_attr "insights" cell_insights convergent_result;
  integrated_insights ← merge self d_insights c_insights synergies;
  calculate ← getattr "_calculate_confidence" (_calculate_confidence cls);
  confidence ← calculate self synergies resolved_conflicts;
  combine ← getattr "_combine_paths" (_combine_paths cls);
  d_path ← result_attr "processing_path" cell_processing_path
             divergent_result;
  c_path ← result_attr "processing_path" cell_processing_path
             convergent_result;
  processing_path ← combine self d_path c_path;
  usage ← getattr "_calculate_resource_usage" (_calculate_resource_usage cls);
  d_usage ← result_attr "resource_usage" cell_resource_usage divergent_result;
  c_usage ← result_attr "resource_usage" cell_resource_usage
              convergent_result;
  resource_usage ← usage self d_usage c_usage;
  novelty ← getattr "_calculate_novelty" (_calculate_novelty cls);
  d_novelty ← result_attr "novelty_score" cell_novelty_score divergent_result;
  c_novelty ← result_attr "novelty_score" cell_novelty_score
                convergent_result;
  novelty_score ← novelty self d_novelty c_novelty synergies;
  alloc (ResultObject
           (mkCell integrated_insights confidence processing_path
              resource_usage novelty_score)).

(** *** What a well-behaved collaborator does *)





End Heap.



(** ** Concrete collaborators

    The simplest classes that fit the five missing names; the examples
    below run the program with them. *)

(** A pattern integrator that detects no synergy. *)
Definition no_synergies : PyObject := PatternIntegrator (fun _ _ => []).

(** A conflict resolver that detects no conflict. *)
Definition no_conflicts : PyObject := ConflictResolver (fun _ _ => []).

(** A conflict resolver that finds the first divergent insight
    contradicted and drops it with its opponent. *)
Definition drop_first : PyObject :=
  ConflictResolver (fun d c =>
    match insights d with
    | x :: _ => [mkConflict x (String.append "not " x) 0.5 DropBoth]
    | [] => []
    end).

(** A pattern integrator that pairs the first insights of both sides. *)
Definition pair_heads : PyObject :=
  PatternIntegrator (fun d c =>
    match insights d, insights c with
    | x :: _, y :: _ =>
        [mkSynergy x y 0.5 (Some (String.append x (String.append "+" y)))]
    | _, _ => []
    end).

(** A mode selector that reads the requirements off the first letter of
    the input and applies the policy of [TaskOptimizer]. *)
Definition letter_selector : PyObject :=
  ModeSelector
    (fun input_data =>
       match input_data with
       | String "d"%char _ => mkProfile 0.5 0.9 0.2
       | String "b"%char _ => mkProfile 0.5 0.9 0.9
       | _ => mkProfile 0.5 0.2 0.9
       end)
    (fun p =>
       TaskOptimizer.optimize_processing "" (complexity p)
         (creativity_required p) (analysis_required p)).

(** A strategy with one insight about its input. *)
Definition one_insight (label : string) (conf nov : pyfloat) : PyObject :=
  Strategy (fun input_data =>
    mret (mkResult [String.append label input_data] conf [label] 1 nov)).

(** A strategy that always fails. *)
Definition failing : PyObject :=
  Strategy (fun _ => raise (StrategyError "no result")).

(** A strategy whose result has an empty path and a confidence of 2:
    the dataclass accepts it. *)
Definition unchecked : PyObject :=
  Strategy (fun input_data => mret (mkResult [input_data] 2 [] 1 0.5)).

(** A novelty bonus: a flat reward as soon as there is a synergy. *)
Definition flat_bonus (synergies : list Synergy) : pyfloat :=
  match synergies with [] => 0 | _ :: _ => 0.05 end.

Definition example_methods : CallosumMethods :=
  spec_methods 0.5 0.1 "integration" flat_bonus.

Definition example_callosum : CorpusCallosum.t :=
  CorpusCallosum.mk 0.6 no_conflicts pair_heads example_methods.

Definition example_globals : gmap string PyObject :=
  with_collaborators (one_insight "D:" 0.8 0.9) (one_insight "C:" 0.6 0.3)
    letter_selector no_conflicts pair_heads.


(** A bilateral processor whose convergent strategy fails. *)
Definition half_failing : BilateralProcessor.t :=
  BilateralProcessor.mk (one_insight "D:" 0.8 0.9) failing example_callosum 0.7.

(** A bilateral processor whose strategies both return. *)
Definition example_bilateral : BilateralProcessor.t :=
  BilateralProcessor.mk (one_insight "D:" 0.8 0.9) (one_insight "C:" 0.6 0.3)
    example_callosum 0.7.


(** Two results that differ in their confidence only. *)
Definition unsure : ProcessingResult := mkResult ["A"] 0 ["d"] 1 0.5.
Definition certain : ProcessingResult := mkResult ["A"] 1 ["d"] 1 0.5.

(** A callosum whose detectors find nothing, around given methods. *)
Definition quiet_callosum (m : CallosumMethods) : CorpusCallosum.t :=
  CorpusCallosum.mk 0.6 no_conflicts no_synergies m.


(** The convergent insights the merge appends after [seen]: each one
    not seen before, at its first occurrence. *)
Fixpoint fresh_insights (seen c_insights : list string) : list string :=
  match c_insights with
  | [] => []
  | x :: rest =>
      if decide (x ∈ seen) then fresh_insights seen rest
      else x :: fresh_insights (seen ++ [x]) rest
  end.

(** The confidence formula of the specification as a property of a
    callosum: on every pair of results for which [integrate_results]
    returns, the confidence is [combined_confidence] of the two input
    confidences and of what the detectors found. *)
Definition confidence_as_specified (self : CorpusCallosum.t) : Prop :=
  forall d c r synergies conflicts,
    call_find_synergies (CorpusCallosum.pattern_integrator self) d c
      = inr synergies ->
    call_resolve (CorpusCallosum.conflict_resolver self) d c
      = inr conflicts ->
    CorpusCallosum.integrate_results self d c = inr r ->
    confidence r
    == combined_confidence (confidence d) (confidence c) synergies conflicts.

(** The insight merge of the specification as a property of a callosum:
    the merged sequence minus what conflict resolution dropped. *)
Definition insights_as_specified (self : CorpusCallosum.t) : Prop :=
  forall d c r synergies conflicts,
    call_find_synergies (CorpusCallosum.pattern_integrator self) d c
      = inr synergies ->
    call_resolve (CorpusCallosum.conflict_resolver self) d c
      = inr conflicts ->
    CorpusCallosum.integrate_results self d c = inr r ->
    insights r
    = merged_minus_dropped (insights d) (insights c) synergies conflicts.

(** The scenario of the specification: A, B against B, C. *)
Definition scenario_d : ProcessingResult :=
  mkResult ["A"; "B"] 0.8 ["explore"] 2 0.9.
Definition scenario_c : ProcessingResult :=
  mkResult ["B"; "C"] 0.6 ["analyse"] 3 0.3.


(** Two callosums around the same methods: one resolver finds no
    conflict, the other drops the first divergent insight. *)
Definition keeping_callosum (m : CallosumMethods) : CorpusCallosum.t :=
  CorpusCallosum.mk 0.6 no_conflicts no_synergies m.
Definition dropping_callosum (m : CallosumMethods) : CorpusCallosum.t :=
  CorpusCallosum.mk 0.6 drop_first no_synergies m.


(** The program with the unchecked strategy on the divergent side. *)
Definition unchecked_globals : gmap string PyObject :=
  with_collaborators unchecked (one_insight "C:" 0.6 0.3)
    letter_selector no_conflicts pair_heads.

(** The instance [EnhancedSyna()] builds from [example_globals]. *)
Definition example_syna : EnhancedSyna.t :=
  EnhancedSyna.mk (one_insight "D:" 0.8 0.9) (one_insight "C:" 0.6 0.3)
    example_bilateral letter_selector BILATERAL.


(** ** BilateralSynapse *)

(** Python's [max(a, b)]: the first argument unless the second is
    strictly greater. *)
Definition pymax (a b : pyfloat) : pyfloat := if gtb b a then b else a.

Module BilateralSynapse.

Record t := mk {
  creative_potential : pyfloat;
  analytical_potential : pyfloat;
  integration_threshold : pyfloat;
  activation_pattern : list pyfloat
}.

(** A call on a synapse: what it leaves of [self], and how it ends. *)
Definition Method (A : Type) : Type := t -> t * Py A.

(** The two private methods [process_signal] calls on [self], each as
    the class has it: [None] when the class does not define it,
    otherwise whatever call on the synapse it is. *)
Record Class := mkClass {
  _update_potential : option (pyfloat -> pyfloat -> Method pyfloat);
  _generate_integrated_output : option (Method pyfloat)
}.

(** The class as the source has it: [__init__] and [process_signal]
    and neither of the two. *)
Definition as_written : Class := mkClass None None.

(** [BilateralSynapse.__init__] *)
Definition __init__ : t := mk 0 0 0.7 [].

Definition set_creative_potential (v : pyfloat) (self : t) : t :=
  mk v (analytical_potential self) (integration_threshold self)
    (activation_pattern self).

Definition set_analytical_potential (v : pyfloat) (self : t) : t :=
  mk (creative_potential self) v (integration_threshold self)
    (activation_pattern self).

(** [BilateralSynapse.process_signal].  In each assignment the method
    is looked up first, then the old potential is read, then the call is
    made, then its result is stored. *)
Definition process_signal (cls : Class)
    (creative_input analytical_input : pyfloat) : Method pyfloat :=
  fun self =>
    match _update_potential cls with
    | None => (self, raise (AttributeError "_update_potential"))
    | Some update =>
        match update (creative_potential self) creative_input self with
        | (self, inl e) => (self, inl e)
        | (self, inr v) =>
            let self := set_creative_potential v self in
            match update (analytical_potential self) analytical_input self with
            | (self, inl e) => (self, inl e)
            | (self, inr v) =>
                let self := set_analytical_potential v self in
                if gtb (creative_potential self) (integration_threshold self)
                   && gtb (analytical_potential self)
                        (integration_threshold self)
                then
                  match _generate_integrated_output cls with
                  | None =>
                      (self,
                       raise (AttributeError "_generate_integrated_output"))
                  | Some generate => generate self
                  end
                else
                  (self,
                   inr (pymax (creative_potential self)
                          (analytical_potential self)))
            end
        end
    end.

End BilateralSynapse.

(** A class that supplies both methods: the potential leaks by half and
    takes the input, and every update is recorded in the activation
    pattern; the integrated output is the sum of both potentials. *)
Definition leaky : BilateralSynapse.Class :=
  BilateralSynapse.mkClass
    (Some (fun potential input self =>
             (BilateralSynapse.mk
                (BilateralSynapse.creative_potential self)
                (BilateralSynapse.analytical_potential self)
                (BilateralSynapse.integration_threshold self)
                (BilateralSynapse.activation_pattern self ++ [input]),
              inr (potential / 2 + input))))
    (Some (fun self =>
             (self,
              inr (BilateralSynapse.creative_potential self
                   + BilateralSynapse.analytical_potential self)))).


(** *** The dispatcher's choices *)

(** The selector answers [mode] on this input. *)
Definition selects (selector : PyObject) (input_data : string)
    (mode : ProcessingMode) : Prop :=
  exists profile,
    call_analyze_task selector input_data = inr profile
    /\ call_select_mode selector profile = inr mode.

Definition is_strategy (o : PyObject) : bool :=
  match o with Strategy _ => true | _ => false end.

(** Two strategies that fail differently. *)
Definition failing_with (message : string) : PyObject :=
  Strategy (fun _ => raise (StrategyError message)).

Definition both_failing : BilateralProcessor.t :=
  BilateralProcessor.mk (failing_with "divergent") (failing_with "convergent")
    example_callosum 0.7.

(** An instance whose convergent strategy fails and whose bilateral
    processor is [half_failing]. *)
Definition half_failing_syna : EnhancedSyna.t :=
  EnhancedSyna.mk (one_insight "D:" 0.8 0.9) failing half_failing
    letter_selector BILATERAL.


(** *** Concrete classes and stores *)




(** A pattern integrator that counts its calls in an attribute of its
    own and reports as many synergies as it was called before; the
    resolver finds nothing. *)
Definition counting : Heap.Detectors :=
  Heap.mkDetectors
    (fun pi _ _ =>
       o ← Heap.load pi;
       match o with
       | Heap.ForeignObject calls =>
           _ ← Heap.store pi (Heap.ForeignObject (S calls));
           mret (replicate calls (mkSynergy "" "" 1 None))
       | _ => Heap.throw (AttributeError "find_synergies")
       end)
    (fun _ _ _ => mret []).


(** A store with the two results of the scenario at addresses 2 and 5,
    each after its two lists, a pattern integrator at 6, a conflict
    resolver at 7 and the callosum at 8. *)
Definition scenario_heap : Heap.heap :=
  [ Heap.ListObject (insights scenario_d);
    Heap.ListObject (processing_path scenario_d);
    Heap.ResultObject
      (Heap.mkCell 0%nat (confidence scenario_d) 1%nat
         (resource_usage scenario_d) (novelty_score scenario_d));
    Heap.ListObject (insights scenario_c);
    Heap.ListObject (processing_path scenario_c);
    Heap.ResultObject
      (Heap.mkCell 3%nat (confidence scenario_c) 4%nat
         (resource_usage scenario_c) (novelty_score scenario_c));
    Heap.ForeignObject 0;
    Heap.ForeignObject 0;
    Heap.CallosumObject 0.6 7%nat 6%nat ].


(** *** Novelty *)

(** A result whose novelty score is 2: the dataclass accepts it. *)
Definition overrated : ProcessingResult :=
  mkResult ["A"] 0.8 ["explore"] 2 2.



(** * Theorems *)

(** ** Comparison *)

Lemma gtb_true (x y : pyfloat) : gtb x y = true <-> y < x.
Proof.
  unfold gtb. rewrite negb_true_iff.
  split; intros H.
  - apply Qnot_le_lt. intros Hle. apply Qle_bool_iff in Hle. congruence.
  - destruct (Qle_bool x y) eqn:E; [|reflexivity].
    apply Qle_bool_iff in E. exfalso. apply (Qlt_not_le _ _ H E).
Qed.

Lemma gtb_false (x y : pyfloat) : gtb x y = false <-> x <= y.
Proof. unfold gtb. rewrite negb_false_iff. apply Qle_bool_iff. Qed.

(** ** Mode selection *)

(** C1. [optimize_processing] follows the three-branch policy on every
    pair of requirements, whatever the task and its complexity: above
    0.7 on both sides it answers BILATERAL, otherwise DIVERGENT when
    creativity is strictly the greater, otherwise CONVERGENT, equality
    included; 0.71 against 0.71 is BILATERAL and 0.7 against 0.7 is
    CONVERGENT. *)
Theorem optimize_processing_policy :
  forall (task : string) (complexity creativity analysis : pyfloat),
    mode_policy creativity analysis
      (TaskOptimizer.optimize_processing task complexity creativity analysis)
    /\ (forall mode, mode_policy creativity analysis mode ->
          TaskOptimizer.optimize_processing task complexity creativity analysis
          = mode)
    /\ TaskOptimizer.optimize_processing task complexity 0.71 0.71 = BILATERAL
    /\ TaskOptimizer.optimize_processing task complexity 0.7 0.7 = CONVERGENT.
Proof.
  intros task complexity cr an.
  assert (Hrun : mode_policy cr an
            (TaskOptimizer.optimize_processing task complexity cr an)).
  { unfold TaskOptimizer.optimize_processing.
    destruct (gtb cr 0.7) eqn:E1; destruct (gtb an 0.7) eqn:E2; simpl;
      try (apply gtb_true in E1); try (apply gtb_true in E2);
      try (apply gtb_false in E1); try (apply gtb_false in E2).
    - by constructor.
    - destruct (gtb cr an) eqn:E3;
        [apply gtb_true in E3 | apply gtb_false in E3];
        constructor; try done; intros [_ H]; apply (Qlt_not_le _ _ H E2).
    - destruct (gtb cr an) eqn:E3;
        [apply gtb_true in E3 | apply gtb_false in E3];
        constructor; try done; intros [H _]; apply (Qlt_not_le _ _ H E1).
    - destruct (gtb cr an) eqn:E3;
        [apply gtb_true in E3 | apply gtb_false in E3];
        constructor; try done; intros [H _]; apply (Qlt_not_le _ _ H E1). }
  split; [exact Hrun|]. split; [|split; reflexivity].
  intros mode Hmode.
  destruct Hrun; destruct Hmode; try reflexivity;
    solve [ exfalso; auto
          | exfalso; eapply Qlt_not_le; eauto ].
Qed.

(** ** Construction *)

Lemma missing_names :
  Forall (fun name => syna_globals !! name = None)
    ["DivergentProcessor"; "ConvergentProcessor"; "ModeSelector";
     "ConflictResolver"; "PatternIntegrator"]%string.
Proof. repeat constructor. Qed.

(** Once the five names are bound the constructor returns. *)
Lemma init_with_collaborators (dv cv ms cr pi : PyObject)
    (m : CallosumMethods) :
  EnhancedSyna.__init__ (with_collaborators dv cv ms cr pi) m
  = mret (EnhancedSyna.mk dv cv
            (BilateralProcessor.mk dv cv (CorpusCallosum.mk 0.6 cr pi m) 0.7)
            ms BILATERAL).
Proof. reflexivity. Qed.

(** C10. With the names the source file binds and no others, the three
    constructors raise [NameError] at the first missing class, and
    [EnhancedSyna().process_input(x)] ends with that error for every
    input, under either completion order and whatever the private
    methods are, before any task is created or any integration called. *)
Theorem process_input_unreachable :
  forall (m : CallosumMethods) (order : Completion) (input_data : string),
    EnhancedSyna.__init__ syna_globals m
      = raise (NameError "DivergentProcessor")
    /\ BilateralProcessor.__init__ syna_globals m
      = raise (NameError "DivergentProcessor")
    /\ CorpusCallosum.__init__ syna_globals m
      = raise (NameError "ConflictResolver")
    /\ EnhancedSyna.run syna_globals m order input_data
      = ([], raise (NameError "DivergentProcessor"))
    /\ returned (outcome (EnhancedSyna.run syna_globals m order input_data))
      = None.
Proof. intros m order input_data. repeat split. Qed.

(** ** The orchestrator *)

Lemma create_task_outcome (id : TaskId) (o : PyObject) (input_data : string) :
  (exists f, o = Strategy f
     /\ create_task id o input_data = ([TaskCreated id], inr (f input_data))
     /\ call_process_thought o input_data = f input_data)
  \/ (create_task id o input_data
        = ([], raise (AttributeError "process_thought"))
      /\ call_process_thought o input_data
        = raise (AttributeError "process_thought")).
Proof. destruct o; simpl; eauto. Qed.

(** The executions of [process_thought], by what the two strategy calls
    give: every case of the two objects and their outcomes. *)
Lemma process_thought_cases (order : Completion) (self : BilateralProcessor.t)
    (input_data : string) :
  let run := BilateralProcessor.process_thought order self input_data in
  let d_call :=
    call_process_thought (BilateralProcessor.divergent self) input_data in
  let c_call :=
    call_process_thought (BilateralProcessor.convergent self) input_data in
  (exists d c, d_call = inr d /\ c_call = inr c
     /\ run = ([TaskCreated DivergentTask; TaskCreated ConvergentTask;
                IntegrateCalled d c],
               CorpusCallosum.integrate_results
                 (BilateralProcessor.corpus_callosum self) d c))
  \/ (exists e, (d_call = inl e \/ c_call = inl e)
        /\ outcome run = inl e
        /\ forall d c, IntegrateCalled d c ∉ trace_of run).
Proof.
  intros run d_call c_call. subst run d_call c_call.
  unfold BilateralProcessor.process_thought.
  destruct (create_task_outcome DivergentTask
              (BilateralProcessor.divergent self) input_data)
    as [(f & _ & -> & ->)|[-> ->]];
    [|right; eexists; split; [left; reflexivity|];
      split; [reflexivity|]; intros d c H; simpl in H; inversion H].
  destruct (create_task_outcome ConvergentTask
              (BilateralProcessor.convergent self) input_data)
    as [(f' & _ & -> & ->)|[-> ->]];
    [|right; eexists; split; [right; reflexivity|];
      split; [reflexivity|]; intros d c H; simpl in H;
      apply list_elem_of_In in H; simpl in H; intuition discriminate].
  destruct (f input_data) as [e|d] eqn:Ed;
    destruct (f' input_data) as [e'|c] eqn:Ec.
  - right. destruct order.
    + exists e. split; [by left|]. split; [reflexivity|].
      intros d c H. apply list_elem_of_In in H. simpl in H.
      intuition discriminate.
    + exists e'. split; [by right|]. split; [reflexivity|].
      intros d c H. apply list_elem_of_In in H. simpl in H.
      intuition discriminate.
  - right. exists e. split; [by left|].
    split; [by destruct order|].
    intros d0 c0 H. destruct order; apply list_elem_of_In in H; simpl in H;
      intuition discriminate.
  - right. exists e'. split; [by right|].
    split; [by destruct order|].
    intros d0 c0 H. destruct order; apply list_elem_of_In in H; simpl in H;
      intuition discriminate.
  - left. exists d, c. split; [reflexivity|]. split; [reflexivity|].
    destruct order; simpl;
      destruct (CorpusCallosum.integrate_results _ d c); reflexivity.
Qed.

(** C6. When either of the two strategy calls of [process_thought]
    fails, under either completion order, [process_thought] ends by
    raising the exception of a failed call and its execution contains no
    call of [integrate_results]. *)
Theorem no_integration_after_failure :
  forall (order : Completion) (self : BilateralProcessor.t)
         (input_data : string) (e : Exception),
    call_process_thought (BilateralProcessor.divergent self) input_data
      = inl e
    \/ call_process_thought (BilateralProcessor.convergent self) input_data
      = inl e ->
    let run := BilateralProcessor.process_thought order self input_data in
    (exists e',
        (call_process_thought (BilateralProcessor.divergent self) input_data
           = inl e'
         \/ call_process_thought (BilateralProcessor.convergent self)
              input_data = inl e')
        /\ outcome run = inl e')
    /\ returned (outcome run) = None
    /\ forall d c, IntegrateCalled d c ∉ trace_of run.
Proof.
  intros order self input_data e Hfail run. subst run.
  destruct (process_thought_cases order self input_data)
    as [(d & c & Hd & Hc & _)|(e' & He' & Hout & Htrace)].
  - exfalso. destruct Hfail as [H|H]; congruence.
  - split; [exists e'; by split|]. split; [by rewrite Hout|]. exact Htrace.
Qed.

Lemma no_integration_after_failure_witness :
  (exists e',
      (call_process_thought (BilateralProcessor.divergent half_failing) "x"
         = inl e'
       \/ call_process_thought (BilateralProcessor.convergent half_failing)
            "x" = inl e')
      /\ outcome (BilateralProcessor.process_thought DivergentFirst
                    half_failing "x") = inl e')
  /\ returned (outcome (BilateralProcessor.process_thought DivergentFirst
                          half_failing "x")) = None
  /\ forall d c,
       IntegrateCalled d c
       ∉ trace_of (BilateralProcessor.process_thought DivergentFirst
                     half_failing "x").
Proof.
  apply (no_integration_after_failure DivergentFirst half_failing "x"
           (StrategyError "no result")).
  right. reflexivity.
Defined.

(** C7. The completion order of the two tasks does not reach the
    result of [process_thought]: under both orders the same value is
    returned, if any; every call of [integrate_results] in an execution
    has the divergent strategy's result as its first argument and the
    convergent strategy's result as its second; and when both strategies
    return, the whole execution is the same under both orders and ends
    with [integrate_results] of the two results in that order. *)
Theorem completion_order_irrelevant :
  forall (self : BilateralProcessor.t) (input_data : string),
    let d_call :=
      call_process_thought (BilateralProcessor.divergent self) input_data in
    let c_call :=
      call_process_thought (BilateralProcessor.convergent self) input_data in
    (returned (outcome (BilateralProcessor.process_thought DivergentFirst
                          self input_data))
     = returned (outcome (BilateralProcessor.process_thought ConvergentFirst
                            self input_data)))
    /\ (forall order d c,
          IntegrateCalled d c
          ∈ trace_of (BilateralProcessor.process_thought order self input_data)
          -> d_call = inr d /\ c_call = inr c)
    /\ (forall d c, d_call = inr d -> c_call = inr c ->
        forall order,
          BilateralProcessor.process_thought order self input_data
          = ([TaskCreated DivergentTask; TaskCreated ConvergentTask;
              IntegrateCalled d c],
             CorpusCallosum.integrate_results
               (BilateralProcessor.corpus_callosum self) d c)).
Proof.
  intros self input_data d_call c_call. subst d_call c_call.
  split; [|split].
  - destruct (process_thought_cases DivergentFirst self input_data)
      as [(d & c & Hd & Hc & ->)|(e & He & -> & _)];
      destruct (process_thought_cases ConvergentFirst self input_data)
        as [(d' & c' & Hd' & Hc' & ->)|(e' & He' & -> & _)];
      simpl; try reflexivity.
    + congruence.
    + exfalso. destruct He' as [H|H]; congruence.
    + exfalso. destruct He as [H|H]; congruence.
  - intros order d c Hin.
    destruct (process_thought_cases order self input_data)
      as [(d' & c' & Hd' & Hc' & Hrun)|(e & _ & _ & Hno)].
    + rewrite Hrun in Hin. apply list_elem_of_In in Hin. simpl in Hin.
      destruct Hin as [H|[H|[H|[]]]]; try discriminate.
      inversion H; subst. by split.
    + exfalso. exact (Hno d c Hin).
  - intros d c Hd Hc order.
    destruct (process_thought_cases order self input_data)
      as [(d' & c' & Hd' & Hc' & Hrun)|(e & He & _ & _)].
    + rewrite Hrun. congruence.
    + exfalso. destruct He as [H|H]; congruence.
Qed.

(** The convergent task finishing first, on a concrete processor. *)
Example convergent_first_same_result :
  BilateralProcessor.process_thought ConvergentFirst example_bilateral "x"
  = BilateralProcessor.process_thought DivergentFirst example_bilateral "x"
  /\ insights <$> returned (outcome (BilateralProcessor.process_thought
                                       ConvergentFirst example_bilateral "x"))
     = Some ["D:x"; "C:x"; "D:x+C:x"].
Proof. split; reflexivity. Qed.

(** ** Integration: what [integrate_results] returns *)

Lemma integrate_results_inv (self : CorpusCallosum.t)
    (d c r : ProcessingResult) :
  CorpusCallosum.integrate_results self d c = inr r ->
  exists synergies conflicts,
    call_find_synergies (CorpusCallosum.pattern_integrator self) d c
      = inr synergies
    /\ call_resolve (CorpusCallosum.conflict_resolver self) d c
      = inr conflicts
    /\ r = {|
        insights :=
          _merge_insights (CorpusCallosum.methods self) (insights d)
            (insights c) synergies;
        confidence :=
          _calculate_confidence (CorpusCallosum.methods self) synergies
            conflicts;
        processing_path :=
          _combine_paths (CorpusCallosum.methods self) (processing_path d)
            (processing_path c);
        resource_usage :=
          _calculate_resource_usage (CorpusCallosum.methods self)
            (resource_usage d) (resource_usage c);
        novelty_score :=
          _calculate_novelty (CorpusCallosum.methods self) (novelty_score d)
            (novelty_score c) synergies |}.
Proof.
  unfold CorpusCallosum.integrate_results.
  destruct (call_find_synergies _ d c) as [e|synergies]; [discriminate|].
  destruct (call_resolve _ d c) as [e|conflicts]; [discriminate|].
  simpl. intros [= <-]. by exists synergies, conflicts.
Qed.

(** With detectors of the right classes the call returns. *)
Lemma integrate_results_returns (threshold : pyfloat)
    (g : ProcessingResult -> ProcessingResult -> list Conflict)
    (f : ProcessingResult -> ProcessingResult -> list Synergy)
    (m : CallosumMethods) (d c : ProcessingResult) :
  CorpusCallosum.integrate_results
    (CorpusCallosum.mk threshold (ConflictResolver g) (PatternIntegrator f) m)
    d c
  = inr {|
      insights := _merge_insights m (insights d) (insights c) (f d c);
      confidence := _calculate_confidence m (f d c) (g d c);
      processing_path :=
        _combine_paths m (processing_path d) (processing_path c);
      resource_usage :=
        _calculate_resource_usage m (resource_usage d) (resource_usage c);
      novelty_score :=
        _calculate_novelty m (novelty_score d) (novelty_score c) (f d c) |}.
Proof. reflexivity. Qed.

(** ** Clamping *)

Lemma clamp01_bounds (x : pyfloat) : 0 <= clamp01 x <= 1.
Proof.
  unfold clamp01. split.
  - apply Q.le_max_l.
  - apply Q.max_lub; [lra | apply Q.le_min_l].
Qed.


Lemma clamp01_id (x : pyfloat) : 0 <= x <= 1 -> clamp01 x == x.
Proof.
  intros [H0 H1]. unfold clamp01.
  rewrite (Q.min_r 1 x H1). by apply Q.max_r.
Qed.

Lemma total_synergy_bonus_cap (synergies : list Synergy) :
  total_synergy_bonus synergies <= 0.3.
Proof. apply Q.le_min_l. Qed.

Lemma total_conflict_penalty_cap (conflicts : list Conflict) :
  total_conflict_penalty conflicts <= 0.3.
Proof. apply Q.le_min_l. Qed.

Lemma sum_floats_nonneg (xs : list pyfloat) :
  Forall (fun x => 0 <= x) xs -> 0 <= sum_floats xs.
Proof.
  induction 1 as [|x xs Hx _ IH]; unfold sum_floats in *; simpl.
  - apply Qle_refl.
  - change 0 with (0 + 0). by apply Qplus_le_compat.
Qed.

Lemma total_synergy_bonus_nonneg (synergies : list Synergy) :
  Forall (fun s => 0 <= synergy_strength s) synergies ->
  0 <= total_synergy_bonus synergies.
Proof.
  intros H. unfold total_synergy_bonus. apply Q.min_glb; [lra|].
  assert (0 <= sum_floats (synergy_strength <$> synergies)).
  { apply sum_floats_nonneg. by apply Forall_fmap. }
  lra.
Qed.

(** ** Integration: confidence *)

(** The confidence of an integration is decided by what the detectors
    report: two pairs of inputs with the same synergies and conflicts get
    the same confidence, whatever their own confidences. *)
Lemma confidence_from_detectors (self : CorpusCallosum.t)
    (d c d' c' r r' : ProcessingResult) :
  call_find_synergies (CorpusCallosum.pattern_integrator self) d c
    = call_find_synergies (CorpusCallosum.pattern_integrator self) d' c' ->
  call_resolve (CorpusCallosum.conflict_resolver self) d c
    = call_resolve (CorpusCallosum.conflict_resolver self) d' c' ->
  CorpusCallosum.integrate_results self d c = inr r ->
  CorpusCallosum.integrate_results self d' c' = inr r' ->
  confidence r = confidence r'.
Proof.
  intros Hs Hk Hr Hr'.
  apply integrate_results_inv in Hr as (s & k & Hs1 & Hk1 & ->).
  apply integrate_results_inv in Hr' as (s' & k' & Hs2 & Hk2 & ->).
  simpl. congruence.
Qed.

(** C3, as stated, fails: [_calculate_confidence] is called with the
    synergies and the resolved conflicts only, so with detectors that
    find nothing no body of the method yields the average of the input
    confidences: it would have to answer 0 for two inputs of confidence
    0 and 1 for two inputs of confidence 1 from the same arguments. *)
Lemma confidence_formula_unreachable :
  ~ exists m : CallosumMethods, confidence_as_specified (quiet_callosum m).
Proof.
  intros [m H].
  assert (H0 := H unsure unsure _ [] [] eq_refl eq_refl eq_refl).
  assert (H1 := H certain certain _ [] [] eq_refl eq_refl eq_refl).
  simpl in H0, H1. rewrite H0 in H1. vm_compute in H1. discriminate.
Qed.

(** C3, amended.  The integrated confidence is the value of
    [_calculate_confidence] on the detected synergies and the resolved
    conflicts, and on nothing else of the inputs.  With the specified
    body on those arguments, a fixed base plus the synergy bonus (0.1
    per unit of strength, at most 0.3) minus the conflict penalty
    (scaled and capped alike), clamped, the call returns and the
    confidence of its result lies between 0 and 1. *)
Theorem integrated_confidence :
  forall (base threshold : pyfloat)
         (g : ProcessingResult -> ProcessingResult -> list Conflict)
         (f : ProcessingResult -> ProcessingResult -> list Synergy)
         (m : CallosumMethods) (d c : ProcessingResult),
    _calculate_confidence m = calculate_confidence_spec base ->
    let self :=
      CorpusCallosum.mk threshold (ConflictResolver g) (PatternIntegrator f) m
    in
    exists r,
      CorpusCallosum.integrate_results self d c = inr r
      /\ confidence r
         = clamp01 (base + total_synergy_bonus (f d c)
                    - total_conflict_penalty (g d c))
      /\ total_synergy_bonus (f d c) <= 0.3
      /\ total_conflict_penalty (g d c) <= 0.3
      /\ 0 <= confidence r <= 1
      /\ (forall d' c' r',
            f d' c' = f d c -> g d' c' = g d c ->
            CorpusCallosum.integrate_results self d' c' = inr r' ->
            confidence r' = confidence r).
Proof.
  intros base threshold g f m d c Hm self. subst self.
  eexists. split; [apply integrate_results_returns|]. simpl.
  rewrite Hm. unfold calculate_confidence_spec.
  split; [reflexivity|].
  split; [apply total_synergy_bonus_cap|].
  split; [apply total_conflict_penalty_cap|].
  split; [apply clamp01_bounds|].
  intros d' c' r' Hf Hg Hr'.
  rewrite integrate_results_returns in Hr'. injection Hr' as <-. simpl.
  rewrite Hm. unfold calculate_confidence_spec. by rewrite Hf, Hg.
Qed.

Lemma integrated_confidence_witness :
  exists r,
    CorpusCallosum.integrate_results example_callosum scenario_d scenario_c
      = inr r
    /\ confidence r == 0.55
    /\ 0 <= confidence r <= 1.
Proof.
  destruct (integrated_confidence 0.5 0.6 (fun _ _ => [])
              (fun d c =>
                 match insights d, insights c with
                 | x :: _, y :: _ =>
                     [mkSynergy x y 0.5
                        (Some (String.append x (String.append "+" y)))]
                 | _, _ => []
                 end)
              example_methods scenario_d scenario_c eq_refl)
    as (r & Hr & Hconf & _ & _ & Hbounds & _).
  exists r. split; [exact Hr|]. split; [|exact Hbounds].
  rewrite Hconf. reflexivity.
Defined.

(** ** Integration: novelty *)

(** The novelty formula and its upper bound need nothing of the inputs. *)
Lemma integrated_novelty_formula (bonus : list Synergy -> pyfloat)
    (self : CorpusCallosum.t) (d c r : ProcessingResult) :
  _calculate_novelty (CorpusCallosum.methods self)
    = calculate_novelty_spec bonus ->
  CorpusCallosum.integrate_results self d c = inr r ->
  exists synergies,
    call_find_synergies (CorpusCallosum.pattern_integrator self) d c
      = inr synergies
    /\ novelty_score r
       = clamp01 (Qmax (novelty_score d) (novelty_score c) + bonus synergies)
    /\ 0 <= novelty_score r <= 1.
Proof.
  intros Hm Hr.
  apply integrate_results_inv in Hr as (s & k & Hs & _ & ->). simpl.
  exists s. rewrite Hm. unfold calculate_novelty_spec.
  split; [exact Hs|]. split; [reflexivity | apply clamp01_bounds].
Qed.


(** With the specified body the same input shows it: the integrated
    novelty is 1, below the 2 that came in. *)
Example overrated_novelty_drops :
  exists r,
    CorpusCallosum.integrate_results example_callosum overrated scenario_c
      = inr r
    /\ novelty_score r == 1
    /\ novelty_score r < novelty_score overrated.
Proof.
  eexists. split; [reflexivity|]. split; reflexivity.
Qed.



(** ** Integration: insights *)

Lemma foldl_add_new (d_insights c_insights : list string) :
  foldl add_new d_insights c_insights
  = d_insights ++ fresh_insights d_insights c_insights.
Proof.
  revert d_insights.
  induction c_insights as [|x rest IH]; intros seen; simpl.
  - by rewrite app_nil_r.
  - unfold add_new at 2. destruct (decide (x ∈ seen)); rewrite IH; [done|].
    by rewrite <- app_assoc.
Qed.

Lemma fresh_insights_elem (seen c_insights : list string) (x : string) :
  x ∈ fresh_insights seen c_insights <-> x ∈ c_insights /\ x ∉ seen.
Proof.
  revert seen.
  induction c_insights as [|y rest IH]; intros seen; simpl.
  - rewrite elem_of_nil. tauto.
  - destruct (decide (y ∈ seen)) as [Hin|Hout].
    + rewrite IH, elem_of_cons. split; [tauto|].
      intros [[->|Hx] Hseen]; [contradiction|tauto].
    + rewrite elem_of_cons, IH, elem_of_cons, elem_of_app,
        list_elem_of_singleton.
      destruct (decide (x = y)) as [->|Hne]; [tauto|]. tauto.
Qed.

Lemma fresh_insights_NoDup (seen c_insights : list string) :
  NoDup (fresh_insights seen c_insights).
Proof.
  revert seen.
  induction c_insights as [|y rest IH]; intros seen; simpl.
  - constructor.
  - destruct (decide (y ∈ seen)); [apply IH|].
    constructor; [|apply IH].
    rewrite fresh_insights_elem, elem_of_app, list_elem_of_singleton. tauto.
Qed.

Lemma fresh_insights_sublist (seen c_insights : list string) :
  sublist (fresh_insights seen c_insights) c_insights.
Proof.
  revert seen.
  induction c_insights as [|y rest IH]; intros seen; simpl.
  - constructor.
  - destruct (decide (y ∈ seen)).
    + apply sublist_cons, IH.
    + apply sublist_skip, IH.
Qed.

Lemma filter_agree (P1 P2 : string -> Prop)
    `{!forall x, Decision (P1 x)} `{!forall x, Decision (P2 x)}
    (l : list string) :
  (forall x, x ∈ l -> P1 x <-> P2 x) -> filter P1 l = filter P2 l.
Proof.
  induction l as [|y l IH]; intros Hiff; [done|].
  rewrite !filter_cons.
  assert (Hy : P1 y <-> P2 y) by (apply Hiff; left).
  assert (Hl : filter P1 l = filter P2 l).
  { apply IH. intros x Hx. apply Hiff. by right. }
  destruct (decide (P1 y)), (decide (P2 y)); try tauto; by rewrite Hl.
Qed.

(** When the convergent insights are distinct, the appended ones are
    those absent from the divergent side, in their order. *)
Lemma fresh_insights_filter (seen c_insights : list string) :
  NoDup c_insights ->
  fresh_insights seen c_insights = filter (fun x => x ∉ seen) c_insights.
Proof.
  intros Hnd. revert seen.
  induction Hnd as [|y rest Hy Hnd IH]; intros seen; simpl; [done|].
  rewrite filter_cons.
  destruct (decide (y ∈ seen)), (decide (y ∉ seen)); try tauto.
  - apply IH.
  - f_equal. rewrite IH. apply filter_agree.
    intros x Hx. rewrite elem_of_app, list_elem_of_singleton.
    split; [tauto|]. intros Hseen [Hin| ->]; [tauto|contradiction].
Qed.

(** C5, as stated, fails: [_merge_insights] is called with the two
    insight lists and the synergies, and the resolved conflicts reach
    only [_calculate_confidence], so no body of the method removes what
    conflict resolution dropped: around the same methods, a resolver
    that drops the only insight and one that drops nothing get the same
    merged list. *)
Lemma dropped_insights_survive :
  ~ exists m : CallosumMethods,
      insights_as_specified (keeping_callosum m)
      /\ insights_as_specified (dropping_callosum m).
Proof.
  intros (m & Hkeep & Hdrop).
  assert (H0 := Hkeep unsure unsure _ _ _ eq_refl eq_refl eq_refl).
  assert (H1 := Hdrop unsure unsure _ _ _ eq_refl eq_refl eq_refl).
  simpl in H0, H1. rewrite H0 in H1. vm_compute in H1. discriminate.
Qed.

(** C5, amended.  With the specified body of [_merge_insights],
    [integrate_results] returns and the insights of its result are, in
    this order: the divergent insights as they were; the convergent
    insights not yet present, each once, in the order of their first
    occurrence; the synthesized synergy insights.  No insight of either
    input appears twice across the two sides, every insight of either
    input is there, and the conflict resolver has no part in it. *)
Theorem integrated_insights :
  forall (threshold : pyfloat)
         (g g' : ProcessingResult -> ProcessingResult -> list Conflict)
         (f : ProcessingResult -> ProcessingResult -> list Synergy)
         (m : CallosumMethods) (d c : ProcessingResult),
    _merge_insights m = merge_insights_spec ->
    exists r r',
      CorpusCallosum.integrate_results
        (CorpusCallosum.mk threshold (ConflictResolver g)
           (PatternIntegrator f) m) d c = inr r
      /\ insights r
         = insights d ++ fresh_insights (insights d) (insights c)
           ++ synthesized_insights (f d c)
      /\ NoDup (fresh_insights (insights d) (insights c))
      /\ sublist (fresh_insights (insights d) (insights c)) (insights c)
      /\ (forall x, x ∈ fresh_insights (insights d) (insights c)
                    <-> x ∈ insights c /\ x ∉ insights d)
      /\ (forall x, x ∈ insights d \/ x ∈ insights c -> x ∈ insights r)
      /\ (NoDup (insights d) ->
          NoDup (insights d ++ fresh_insights (insights d) (insights c)))
      /\ (NoDup (insights c) ->
          fresh_insights (insights d) (insights c)
          = filter (fun x => x ∉ insights d) (insights c))
      /\ CorpusCallosum.integrate_results
           (CorpusCallosum.mk threshold (ConflictResolver g')
              (PatternIntegrator f) m) d c = inr r'
      /\ insights r' = insights r.
Proof.
  intros threshold g g' f m d c Hm.
  assert (Hmerge :
    _merge_insights m (insights d) (insights c) (f d c)
    = insights d ++ fresh_insights (insights d) (insights c)
      ++ synthesized_insights (f d c)).
  { rewrite Hm. unfold merge_insights_spec.
    by rewrite foldl_add_new, <- app_assoc. }
  do 2 eexists.
  split; [apply (integrate_results_returns threshold g f)|].
  split; [exact Hmerge|].
  split; [apply fresh_insights_NoDup|].
  split; [apply fresh_insights_sublist|].
  split; [apply fresh_insights_elem|].
  split.
  { intros x Hx. simpl. rewrite Hmerge, !elem_of_app, fresh_insights_elem.
    destruct (decide (x ∈ insights d)); [tauto|]. destruct Hx; tauto. }
  split.
  { intros Hnd. apply NoDup_app. split; [exact Hnd|].
    split; [|apply fresh_insights_NoDup].
    intros x Hx. rewrite fresh_insights_elem. tauto. }
  split; [apply fresh_insights_filter|].
  split; [apply (integrate_results_returns threshold g' f)|]. reflexivity.
Qed.

Lemma integrated_insights_witness :
  exists r,
    CorpusCallosum.integrate_results example_callosum scenario_d scenario_c
      = inr r
    /\ insights r = ["A"; "B"; "C"; "A+B"].
Proof.
  destruct (integrated_insights 0.6 (fun _ _ => []) (fun _ _ => [])
              (fun d c =>
                 match insights d, insights c with
                 | x :: _, y :: _ =>
                     [mkSynergy x y 0.5
                        (Some (String.append x (String.append "+" y)))]
                 | _, _ => []
                 end)
              example_methods scenario_d scenario_c eq_refl)
    as (r & _ & Hr & Hins & _).
  exists r. split; [exact Hr|]. rewrite Hins. reflexivity.
Defined.

(** ** The dispatcher *)

Lemma example_syna_constructed :
  EnhancedSyna.__init__ example_globals example_methods = inr example_syna.
Proof. reflexivity. Qed.

(** C8, as stated, fails: in a single mode [process_input] hands back
    what the strategy returned, and nothing checks it.  Here the
    divergent strategy returns a result with an empty path and a
    confidence of 2, the selector chooses DIVERGENT, and that result is
    what the caller gets. *)
Lemma unchecked_result_returned :
  exists r,
    outcome (EnhancedSyna.run unchecked_globals example_methods
               DivergentFirst "dream") = inr r
    /\ processing_path r = []
    /\ ~ confidence r <= 1
    /\ ~ well_formed r.
Proof.
  eexists. split; [reflexivity|]. simpl.
  split; [reflexivity|].
  split; [intros H; vm_compute in H; by apply H|].
  intros [H _]. by apply H.
Qed.

(** C8, amended.  Whenever [process_input] returns: in bilateral mode
    both strategies returned, the path of the result is the divergent
    path, then the convergent path, then the integration marker, hence
    not empty, and with the specified body of [_calculate_confidence]
    its confidence is between 0 and 1; in a single mode the result is
    the result of the selected strategy, unmodified.  So the result has
    a non-empty path and a confidence between 0 and 1 provided the
    results of the strategies do. *)
Theorem process_input_result :
  forall (marker : string) (base : pyfloat) (order : Completion)
         (self : EnhancedSyna.t) (input_data : string)
         (r : ProcessingResult),
    let m :=
      CorpusCallosum.methods
        (BilateralProcessor.corpus_callosum (EnhancedSyna.bilateral self)) in
    _combine_paths m = combine_paths_spec marker ->
    _calculate_confidence m = calculate_confidence_spec base ->
    outcome (EnhancedSyna.process_input order self input_data) = inr r ->
    (exists profile mode,
        call_analyze_task (EnhancedSyna.mode_selector self) input_data
          = inr profile
        /\ call_select_mode (EnhancedSyna.mode_selector self) profile
          = inr mode
        /\ match mode with
           | BILATERAL =>
               exists d c,
                 call_process_thought
                   (BilateralProcessor.divergent (EnhancedSyna.bilateral self))
                   input_data = inr d
                 /\ call_process_thought
                      (BilateralProcessor.convergent
                         (EnhancedSyna.bilateral self))
                      input_data = inr c
                 /\ processing_path r
                    = processing_path d ++ processing_path c ++ [marker]
                 /\ well_formed r
           | DIVERGENT =>
               call_process_thought (EnhancedSyna.divergent self) input_data
               = inr r
           | CONVERGENT =>
               call_process_thought (EnhancedSyna.convergent self) input_data
               = inr r
           end)
    /\ ((forall r',
           call_process_thought (EnhancedSyna.divergent self) input_data
             = inr r' -> well_formed r') ->
        (forall r',
           call_process_thought (EnhancedSyna.convergent self) input_data
             = inr r' -> well_formed r') ->
        well_formed r).
Proof.
  intros marker base order self input_data r m Hpaths Hconf Hrun.
  assert (Hbil : forall d c,
    CorpusCallosum.integrate_results
      (BilateralProcessor.corpus_callosum (EnhancedSyna.bilateral self)) d c
      = inr r ->
    processing_path r = processing_path d ++ processing_path c ++ [marker]
    /\ well_formed r).
  { intros d c Hr.
    apply integrate_results_inv in Hr as (s & k & _ & _ & ->).
    unfold well_formed. simpl. fold m. rewrite Hpaths, Hconf.
    unfold combine_paths_spec, calculate_confidence_spec.
    split; [reflexivity|]. split; [|apply clamp01_bounds].
    destruct (processing_path d), (processing_path c); discriminate. }
  unfold EnhancedSyna.process_input in Hrun. revert Hrun.
  destruct (call_analyze_task (EnhancedSyna.mode_selector self) input_data)
    as [e|profile] eqn:Ea; [discriminate|].
  simpl.
  destruct (call_select_mode (EnhancedSyna.mode_selector self) profile)
    as [e|mode] eqn:Es; [discriminate|].
  simpl. intros Hrun.
  assert (Hcases :
    match mode with
    | BILATERAL =>
        exists d c,
          call_process_thought
            (BilateralProcessor.divergent (EnhancedSyna.bilateral self))
            input_data = inr d
          /\ call_process_thought
               (BilateralProcessor.convergent (EnhancedSyna.bilateral self))
               input_data = inr c
          /\ processing_path r
             = processing_path d ++ processing_path c ++ [marker]
          /\ well_formed r
    | DIVERGENT =>
        call_process_thought (EnhancedSyna.divergent self) input_data = inr r
    | CONVERGENT =>
        call_process_thought (EnhancedSyna.convergent self) input_data = inr r
    end).
  { destruct mode; simpl in Hrun.
    - destruct (call_process_thought _ input_data); simpl in Hrun; congruence.
    - destruct (call_process_thought _ input_data); simpl in Hrun; congruence.
    - destruct (process_thought_cases order (EnhancedSyna.bilateral self)
                  input_data)
        as [(d & c & Hd & Hc & Heq)|(e & _ & Hout & _)].
      + rewrite Heq in Hrun. simpl in Hrun.
        exists d, c. split; [exact Hd|]. split; [exact Hc|].
        apply Hbil. exact Hrun.
      + revert Hrun Hout. unfold outcome.
        destruct (BilateralProcessor.process_thought order _ input_data)
          as [tr out].
        simpl. congruence. }
  split; [by exists profile, mode|].
  intros Hdiv Hconv. destruct mode.
  - by apply Hdiv.
  - by apply Hconv.
  - destruct Hcases as (d & c & _ & _ & _ & Hwf). exact Hwf.
Qed.

Lemma process_input_result_witness :
  exists r,
    outcome (EnhancedSyna.process_input ConvergentFirst example_syna "both")
      = inr r
    /\ processing_path r = ["D:"; "C:"; "integration"]
    /\ well_formed r.
Proof.
  eexists. split; [reflexivity|]. split; [reflexivity|].
  apply (process_input_result "integration" 0.5 ConvergentFirst example_syna
           "both" _ eq_refl eq_refl eq_refl).
  - intros r' [= <-]. split; [discriminate|]. simpl. lra.
  - intros r' [= <-]. split; [discriminate|]. simpl. lra.
Defined.

(** A single mode on the same instance: the strategy's result comes
    back as it is. *)
Example divergent_mode_unmodified :
  EnhancedSyna.process_input DivergentFirst example_syna "dream"
  = ([], call_process_thought (EnhancedSyna.divergent example_syna) "dream").
Proof. reflexivity. Qed.

(** ** Result objects *)

Lemma bind_inv {A B : Type} (op : Heap.St A) (k : A -> Heap.St B)
    (h h' : Heap.heap) (b : B) :
  (op ≫= k) h = inr (b, h') ->
  exists a h1, op h = inr (a, h1) /\ k a h1 = inr (b, h').
Proof.
  unfold mbind, Heap.st_bind.
  destruct (op h) as [e|[a h1]]; [discriminate|]. eauto.
Qed.

Lemma bind_run {A B : Type} (op : Heap.St A) (k : A -> Heap.St B)
    (h h1 : Heap.heap) (a : A) :
  op h = inr (a, h1) -> (op ≫= k) h = k a h1.
Proof. intros H. unfold mbind, Heap.st_bind. by rewrite H. Qed.

Lemma bind_raise {A B : Type} (op : Heap.St A) (k : A -> Heap.St B)
    (h : Heap.heap) (e : Exception) :
  op h = inl e -> (op ≫= k) h = inl e.
Proof. intros H. unfold mbind, Heap.st_bind. by rewrite H. Qed.







Lemma attr_run (self : Heap.loc) (h : Heap.heap) (thr : pyfloat)
    (cr pi : Heap.loc) :
  h !! self = Some (Heap.CallosumObject thr cr pi) ->
  Heap.attr_pattern_integrator self h = inr (pi, h)
  /\ Heap.attr_conflict_resolver self h = inr (cr, h).
Proof.
  intros H.
  unfold Heap.attr_pattern_integrator, Heap.attr_conflict_resolver,
    Heap.load, mbind, Heap.st_bind.
  by rewrite H.
Qed.

Lemma getattr_inv {T : Type} (name : string) (method : option T)
    (h h1 : Heap.heap) (f : T) :
  Heap.getattr name method h = inr (f, h1) -> h1 = h /\ method = Some f.
Proof.
  destruct method; [|discriminate]. intros [= -> ->]. by split.
Qed.



















(** * Further properties of the code *)

(** ** TaskOptimizer: the regions of the three modes *)

Lemma mode_regions (task : string)
    (complexity creativity analysis : pyfloat) :
  let mode :=
    TaskOptimizer.optimize_processing task complexity creativity analysis
  in
  (mode = BILATERAL <-> 0.7 < creativity /\ 0.7 < analysis)
  /\ (mode = DIVERGENT <-> analysis < creativity /\ analysis <= 0.7)
  /\ (mode = CONVERGENT <-> creativity <= analysis /\ creativity <= 0.7).
Proof.
  intros mode. subst mode.
  unfold TaskOptimizer.optimize_processing.
  destruct (gtb creativity 0.7) eqn:E1; destruct (gtb analysis 0.7) eqn:E2;
    destruct (gtb creativity analysis) eqn:E3; simpl;
    try (apply gtb_true in E1); try (apply gtb_false in E1);
    try (apply gtb_true in E2); try (apply gtb_false in E2);
    try (apply gtb_true in E3); try (apply gtb_false in E3);
    repeat split; try discriminate; try tauto; intros; try lra.
Qed.

(** X1. Each mode has a closed region: BILATERAL exactly when both
    requirements exceed 0.7; DIVERGENT exactly when creativity is
    strictly the greater and analysis is at most 0.7; CONVERGENT exactly
    when creativity is not the greater and is at most 0.7.  So a single
    mode is never chosen against a requirement above 0.7 on the side
    that loses, and a requirement of exactly 0.7 never makes a task
    BILATERAL. *)
Theorem optimize_processing_regions :
  forall (task : string) (complexity creativity analysis : pyfloat),
    let mode :=
      TaskOptimizer.optimize_processing task complexity creativity analysis
    in
    (mode = BILATERAL <-> 0.7 < creativity /\ 0.7 < analysis)
    /\ (mode = DIVERGENT <-> analysis < creativity /\ analysis <= 0.7)
    /\ (mode = CONVERGENT <-> creativity <= analysis /\ creativity <= 0.7)
    /\ (creativity == 0.7 \/ analysis == 0.7 -> mode <> BILATERAL).
Proof.
  intros task complexity cr an mode.
  destruct (mode_regions task complexity cr an) as (Hb & Hd & Hc).
  fold mode in Hb, Hd, Hc.
  split; [exact Hb|]. split; [exact Hd|]. split; [exact Hc|].
  intros H07 Hm. apply Hb in Hm. destruct H07; lra.
Qed.

(** X2. Exchanging the two requirements exchanges the single modes and
    keeps BILATERAL: what is DIVERGENT one way round is CONVERGENT the
    other way round, what is CONVERGENT is DIVERGENT unless the two
    requirements are equal, in which case it stays CONVERGENT. *)
Theorem optimize_processing_swap :
  forall (task task' : string) (complexity complexity' : pyfloat)
         (creativity analysis : pyfloat),
    let mode :=
      TaskOptimizer.optimize_processing task complexity creativity analysis
    in
    let swapped :=
      TaskOptimizer.optimize_processing task' complexity' analysis creativity
    in
    (mode = BILATERAL <-> swapped = BILATERAL)
    /\ (mode = DIVERGENT -> swapped = CONVERGENT)
    /\ (mode = CONVERGENT -> ~ creativity == analysis -> swapped = DIVERGENT)
    /\ (creativity == analysis -> mode = swapped /\ mode <> DIVERGENT).
Proof.
  intros task task' complexity complexity' cr an mode swapped.
  destruct (mode_regions task complexity cr an)
    as (Hb & Hd & Hc).
  destruct (mode_regions task' complexity' an cr)
    as (Hb' & Hd' & Hc').
  fold mode in Hb, Hd, Hc. fold swapped in Hb', Hd', Hc'.
  split; [rewrite Hb, Hb'; tauto|].
  split; [intros H; apply Hc'; apply Hd in H; lra|].
  split.
  - intros H Hne. apply Hd'. apply Hc in H.
    destruct H as [Hle H07]. split; [|exact H07].
    destruct (Qlt_le_dec cr an) as [Hlt|Hge]; [exact Hlt|].
    exfalso. apply Hne. by apply Qle_antisym.
  - intros Heq. split.
    + destruct mode eqn:Em.
      * exfalso. assert (H : an < cr /\ an <= 0.7) by by apply Hd. lra.
      * symmetry. apply Hc'.
        assert (H : cr <= an /\ cr <= 0.7) by by apply Hc. lra.
      * symmetry. apply Hb'.
        assert (H : 0.7 < cr /\ 0.7 < an) by by apply Hb. tauto.
    + intros H. apply Hd in H. lra.
Qed.

(** X3. The choice is stable in the direction it was made: a DIVERGENT
    task stays DIVERGENT when its creativity requirement grows, a
    CONVERGENT task stays CONVERGENT when its analysis requirement
    grows, and a BILATERAL task stays BILATERAL when either grows. *)
Theorem optimize_processing_stable :
  forall (task task' : string) (complexity complexity' : pyfloat)
         (creativity analysis creativity' analysis' : pyfloat),
    let mode :=
      TaskOptimizer.optimize_processing task complexity creativity analysis
    in
    (mode = DIVERGENT -> creativity <= creativity' ->
     TaskOptimizer.optimize_processing task' complexity' creativity' analysis
     = DIVERGENT)
    /\ (mode = CONVERGENT -> analysis <= analysis' ->
        TaskOptimizer.optimize_processing task' complexity' creativity
          analysis' = CONVERGENT)
    /\ (mode = BILATERAL -> creativity <= creativity' ->
        analysis <= analysis' ->
        TaskOptimizer.optimize_processing task' complexity' creativity'
          analysis' = BILATERAL).
Proof.
  intros task task' complexity complexity' cr an cr' an' mode.
  destruct (mode_regions task complexity cr an)
    as (Hb & Hd & Hc).
  fold mode in Hb, Hd, Hc.
  split; [|split].
  - intros H Hle. apply Hd in H.
    apply (mode_regions task' complexity' cr' an). lra.
  - intros H Hle. apply Hc in H.
    apply (mode_regions task' complexity' cr an'). lra.
  - intros H Hc1 Ha1. apply Hb in H.
    apply (mode_regions task' complexity' cr' an'). lra.
Qed.

(** ** The dispatcher: modes, tasks and failures *)

(** The executions of [process_input], by the selector's answer. *)
Lemma process_input_cases (order : Completion) (self : EnhancedSyna.t)
    (input_data : string) :
  let run := EnhancedSyna.process_input order self input_data in
  (exists e, run = ([], inl e)
     /\ forall mode,
          ~ selects (EnhancedSyna.mode_selector self) input_data mode)
  \/ (selects (EnhancedSyna.mode_selector self) input_data DIVERGENT
      /\ run = ([], call_process_thought (EnhancedSyna.divergent self)
                      input_data))
  \/ (selects (EnhancedSyna.mode_selector self) input_data CONVERGENT
      /\ run = ([], call_process_thought (EnhancedSyna.convergent self)
                      input_data))
  \/ (selects (EnhancedSyna.mode_selector self) input_data BILATERAL
      /\ run = BilateralProcessor.process_thought order
                 (EnhancedSyna.bilateral self) input_data).
Proof.
  intros run. subst run. unfold EnhancedSyna.process_input, selects.
  destruct (call_analyze_task (EnhancedSyna.mode_selector self) input_data)
    as [e|profile] eqn:Ea.
  { left. exists e. split; [reflexivity|]. intros mode (p & Hp & _).
    discriminate. }
  simpl.
  destruct (call_select_mode (EnhancedSyna.mode_selector self) profile)
    as [e|mode] eqn:Es.
  { left. exists e. split; [reflexivity|]. intros mode (p & Hp & Hm).
    injection Hp as <-. congruence. }
  simpl. destruct mode.
  - right. left. split; [by exists profile|].
    by destruct (call_process_thought _ input_data).
  - right. right. left. split; [by exists profile|].
    by destruct (call_process_thought _ input_data).
  - right. right. right. split; [by exists profile|].
    by destruct (BilateralProcessor.process_thought order _ input_data)
      as [tr [e|r]].
Qed.

Lemma selects_functional (selector : PyObject) (input_data : string)
    (mode mode' : ProcessingMode) :
  selects selector input_data mode -> selects selector input_data mode' ->
  mode = mode'.
Proof. intros (p & Hp & Hm) (p' & Hp' & Hm'). congruence. Qed.

(** X5. [process_input] creates tasks and calls [integrate_results]
    only when the selector answers BILATERAL.  When it answers DIVERGENT
    or CONVERGENT, the outcome is that of the one selected strategy,
    returned or raised as it is, with no event at all: the other
    strategy and the bilateral processor have no part in it, so
    replacing them changes nothing. *)
Theorem single_mode_isolated :
  forall (order order' : Completion) (self self' : EnhancedSyna.t)
         (input_data : string),
    let run := EnhancedSyna.process_input order self input_data in
    (trace_of run <> [] ->
     selects (EnhancedSyna.mode_selector self) input_data BILATERAL)
    /\ (selects (EnhancedSyna.mode_selector self) input_data DIVERGENT ->
        run = ([], call_process_thought (EnhancedSyna.divergent self)
                     input_data)
        /\ (EnhancedSyna.mode_selector self' = EnhancedSyna.mode_selector self
            -> EnhancedSyna.divergent self' = EnhancedSyna.divergent self
            -> EnhancedSyna.process_input order' self' input_data = run))
    /\ (selects (EnhancedSyna.mode_selector self) input_data CONVERGENT ->
        run = ([], call_process_thought (EnhancedSyna.convergent self)
                     input_data)
        /\ (EnhancedSyna.mode_selector self' = EnhancedSyna.mode_selector self
            -> EnhancedSyna.convergent self' = EnhancedSyna.convergent self
            -> EnhancedSyna.process_input order' self' input_data = run)).
Proof.
  intros order order' self self' input_data run.
  assert (Hsingle : forall o s,
    (selects (EnhancedSyna.mode_selector s) input_data DIVERGENT ->
     EnhancedSyna.process_input o s input_data
     = ([], call_process_thought (EnhancedSyna.divergent s) input_data))
    /\ (selects (EnhancedSyna.mode_selector s) input_data CONVERGENT ->
        EnhancedSyna.process_input o s input_data
        = ([], call_process_thought (EnhancedSyna.convergent s) input_data))).
  { intros o s.
    destruct (process_input_cases o s input_data)
      as [(e & _ & Hno)|[[Hs Hrun]|[[Hs Hrun]|[Hs Hrun]]]];
      split; intros Hsel; try exact Hrun;
      try (exfalso; exact (Hno _ Hsel));
      pose proof (selects_functional _ _ _ _ Hs Hsel); discriminate. }
  split; [|split].
  - intros Htrace.
    destruct (process_input_cases order self input_data)
      as [(e & Hrun & _)|[[_ Hrun]|[[_ Hrun]|[Hs _]]]];
      try exact Hs; exfalso; apply Htrace; subst run; by rewrite Hrun.
  - intros Hsel. split; [by apply Hsingle|].
    intros Hms Hdv. subst run.
    rewrite (proj1 (Hsingle order self) Hsel).
    rewrite <- Hms in Hsel. rewrite (proj1 (Hsingle order' self') Hsel).
    by rewrite Hdv.
  - intros Hsel. split; [by apply Hsingle|].
    intros Hms Hcv. subst run.
    rewrite (proj2 (Hsingle order self) Hsel).
    rewrite <- Hms in Hsel. rewrite (proj2 (Hsingle order' self') Hsel).
    by rewrite Hcv.
Qed.

(** X6. In BILATERAL mode [process_input] has no fallback: when either
    strategy of the bilateral processor fails, the call raises the
    exception of a failed strategy, returns nothing, and
    [integrate_results] is not called; the result of the strategy that
    did return is lost. *)
Theorem bilateral_failure_propagates :
  forall (order : Completion) (self : EnhancedSyna.t) (input_data : string)
         (e : Exception),
    selects (EnhancedSyna.mode_selector self) input_data BILATERAL ->
    call_process_thought
      (BilateralProcessor.divergent (EnhancedSyna.bilateral self)) input_data
      = inl e
    \/ call_process_thought
         (BilateralProcessor.convergent (EnhancedSyna.bilateral self))
         input_data = inl e ->
    let run := EnhancedSyna.process_input order self input_data in
    (exists e',
        outcome run = inl e'
        /\ (call_process_thought
              (BilateralProcessor.divergent (EnhancedSyna.bilateral self))
              input_data = inl e'
            \/ call_process_thought
                 (BilateralProcessor.convergent (EnhancedSyna.bilateral self))
                 input_data = inl e'))
    /\ returned (outcome run) = None
    /\ forall d c, IntegrateCalled d c ∉ trace_of run.
Proof.
  intros order self input_data e Hsel Hfail run.
  destruct (process_input_cases order self input_data)
    as [(e0 & _ & Hno)|[[Hs _]|[[Hs _]|[_ Hrun]]]];
    try (exfalso; exact (Hno _ Hsel));
    try (pose proof (selects_functional _ _ _ _ Hs Hsel); discriminate).
  subst run. rewrite Hrun.
  destruct (process_thought_cases order (EnhancedSyna.bilateral self)
              input_data)
    as [(d & c & Hd & Hc & _)|(e' & He' & Hout & Htrace)].
  - exfalso. destruct Hfail as [H|H]; congruence.
  - split; [by exists e'|]. split; [by rewrite Hout|]. exact Htrace.
Qed.

Lemma bilateral_failure_propagates_witness :
  returned (outcome (EnhancedSyna.process_input DivergentFirst
                       half_failing_syna "both")) = None
  /\ forall d c,
       IntegrateCalled d c
       ∉ trace_of (EnhancedSyna.process_input DivergentFirst
                     half_failing_syna "both").
Proof.
  apply (bilateral_failure_propagates DivergentFirst half_failing_syna "both"
           (StrategyError "no result")).
  - eexists. split; reflexivity.
  - right. reflexivity.
Defined.

(** ** The orchestrator: tasks and failures *)

(** X8. [process_thought] creates both tasks before it awaits either:
    with two strategy objects the execution starts with the creation of
    the divergent and then the convergent task whatever their outcomes
    and the completion order.  An object without [process_thought] on
    the divergent side raises [AttributeError] before any task exists;
    on the convergent side it raises after the divergent task has been
    created, which is then never awaited. *)
Theorem tasks_created_before_await :
  forall (order : Completion) (self : BilateralProcessor.t)
         (input_data : string),
    let run := BilateralProcessor.process_thought order self input_data in
    (is_strategy (BilateralProcessor.divergent self) = true ->
     is_strategy (BilateralProcessor.convergent self) = true ->
     take 2 (trace_of run)
     = [TaskCreated DivergentTask; TaskCreated ConvergentTask])
    /\ (is_strategy (BilateralProcessor.divergent self) = false ->
        run = ([], raise (AttributeError "process_thought")))
    /\ (is_strategy (BilateralProcessor.divergent self) = true ->
        is_strategy (BilateralProcessor.convergent self) = false ->
        run = ([TaskCreated DivergentTask],
               raise (AttributeError "process_thought"))).
Proof.
  intros order self input_data run. subst run.
  unfold BilateralProcessor.process_thought.
  destruct self as [dv cv cc thr]. simpl.
  split; [|split].
  - destruct dv as [|f| | |]; try discriminate.
    destruct cv as [|f'| | |]; try discriminate. intros _ _. simpl.
    destruct order; simpl;
      destruct (f input_data) as [e|d]; destruct (f' input_data) as [e'|c];
      simpl; try reflexivity;
      by destruct (CorpusCallosum.integrate_results cc d c).
  - destruct dv; try discriminate; reflexivity.
  - destruct dv as [|f| | |]; try discriminate.
    destruct cv; try discriminate; reflexivity.
Qed.

(** X9. When both strategies fail, the exception [process_thought]
    raises is that of the task that finishes first: here, and only
    here, the completion order shows.  Both tasks were created and
    nothing was integrated either way. *)
Theorem first_failure_wins :
  forall (self : BilateralProcessor.t) (input_data : string)
         (e_d e_c : Exception),
    is_strategy (BilateralProcessor.divergent self) = true ->
    is_strategy (BilateralProcessor.convergent self) = true ->
    call_process_thought (BilateralProcessor.divergent self) input_data
      = inl e_d ->
    call_process_thought (BilateralProcessor.convergent self) input_data
      = inl e_c ->
    BilateralProcessor.process_thought DivergentFirst self input_data
      = ([TaskCreated DivergentTask; TaskCreated ConvergentTask], inl e_d)
    /\ BilateralProcessor.process_thought ConvergentFirst self input_data
      = ([TaskCreated DivergentTask; TaskCreated ConvergentTask], inl e_c).
Proof.
  intros self input_data e_d e_c Hsd Hsc Hd Hc.
  unfold BilateralProcessor.process_thought.
  destruct self as [dv cv cc thr]. simpl in *.
  destruct dv as [|f| | |]; try discriminate.
  destruct cv as [|f'| | |]; try discriminate.
  simpl in *. rewrite Hd, Hc. split; reflexivity.
Qed.

Lemma first_failure_wins_witness :
  outcome (BilateralProcessor.process_thought DivergentFirst both_failing "x")
    = inl (StrategyError "divergent")
  /\ outcome (BilateralProcessor.process_thought ConvergentFirst
                both_failing "x")
    = inl (StrategyError "convergent").
Proof.
  destruct (first_failure_wins both_failing "x" (StrategyError "divergent")
              (StrategyError "convergent") eq_refl eq_refl eq_refl eq_refl)
    as [-> ->].
  split; reflexivity.
Defined.

(** ** Integration as the class is written *)

(** X10. A [CorpusCallosum] whose class does not define
    [_merge_insights], as in the source, never returns from
    [integrate_results], whatever the detectors are and even when the
    other four methods are there.  The synergies are asked for first and
    the conflicts second; when both calls return, [AttributeError] for
    [_merge_insights] is raised, before any field of the inputs is
    read; when a detector raises, its exception is what the caller
    gets. *)
Theorem integrate_results_as_written :
  forall (cls : Heap.CallosumClass) (det : Heap.Detectors)
         (self d c : Heap.loc) (h : Heap.heap)
         (thr : pyfloat) (cr pi : Heap.loc),
    Heap._merge_insights cls = None ->
    h !! self = Some (Heap.CallosumObject thr cr pi) ->
    (forall r h', Heap.integrate_results cls det self d c h <> inr (r, h'))
    /\ (forall e, Heap.find_synergies det pi d c h = inl e ->
                  Heap.integrate_results cls det self d c h = inl e)
    /\ (forall synergies h1 thr' cr' pi',
          Heap.find_synergies det pi d c h = inr (synergies, h1) ->
          h1 !! self = Some (Heap.CallosumObject thr' cr' pi') ->
          (forall e, Heap.resolve det cr' d c h1 = inl e ->
                     Heap.integrate_results cls det self d c h = inl e)
          /\ (forall conflicts h2,
                Heap.resolve det cr' d c h1 = inr (conflicts, h2) ->
                Heap.integrate_results cls det self d c h
                = inl (AttributeError "_merge_insights"))).
Proof.
  intros cls det self d c h thr cr pi Hnone Hself.
  split; [|split].
  - intros r h' Hrun. unfold Heap.integrate_results in Hrun.
    apply bind_inv in Hrun as (pi0 & h0 & _ & Hrun).
    apply bind_inv in Hrun as (syn & h1 & _ & Hrun).
    apply bind_inv in Hrun as (cr0 & h1' & _ & Hrun).
    apply bind_inv in Hrun as (confl & h2 & _ & Hrun).
    apply bind_inv in Hrun as (merge & h2' & Hm & _).
    apply getattr_inv in Hm as [_ Hm]. congruence.
  - intros e Hf. unfold Heap.integrate_results.
    rewrite (bind_run _ _ _ _ _ (proj1 (attr_run _ _ _ _ _ Hself))).
    by apply bind_raise.
  - intros syn h1 thr' cr' pi' Hf Hself1.
    pose proof (proj1 (attr_run _ _ _ _ _ Hself)) as Hpi.
    pose proof (proj2 (attr_run _ _ _ _ _ Hself1)) as Hcr.
    split.
    + intros e Hg. unfold Heap.integrate_results.
      rewrite (bind_run _ _ _ _ _ Hpi), (bind_run _ _ _ _ _ Hf),
        (bind_run _ _ _ _ _ Hcr).
      by apply bind_raise.
    + intros confl h2 Hg. unfold Heap.integrate_results.
      rewrite (bind_run _ _ _ _ _ Hpi), (bind_run _ _ _ _ _ Hf),
        (bind_run _ _ _ _ _ Hcr), (bind_run _ _ _ _ _ Hg).
      rewrite Hnone. reflexivity.
Qed.

Lemma integrate_results_as_written_witness :
  (forall r h',
      Heap.integrate_results Heap.as_written counting 8%nat 2%nat 5%nat
        scenario_heap <> inr (r, h'))
  /\ Heap.integrate_results Heap.as_written counting 8%nat 2%nat 5%nat
       scenario_heap = inl (AttributeError "_merge_insights").
Proof.
  destruct (integrate_results_as_written Heap.as_written counting
              8%nat 2%nat 5%nat scenario_heap 0.6 7%nat 6%nat eq_refl eq_refl)
    as (Hnever & _ & Hstep).
  split; [exact Hnever|].
  destruct (Hstep [] (<[6%nat := Heap.ForeignObject 1]> scenario_heap)
              0.6 7%nat 6%nat eq_refl eq_refl) as [_ Hraise].
  by apply (Hraise [] (<[6%nat := Heap.ForeignObject 1]> scenario_heap)).
Defined.

(** ** BilateralSynapse *)

Lemma pymax_spec (a b : pyfloat) :
  a <= pymax a b /\ b <= pymax a b
  /\ (pymax a b = a \/ pymax a b = b)
  /\ (b <= a -> pymax a b = a).
Proof.
  unfold pymax. destruct (gtb b a) eqn:E.
  - apply gtb_true in E. repeat split; try lra; auto.
  - apply gtb_false in E. repeat split; try lra; auto.
Qed.

(** X12. [process_signal] as the class is written raises
    [AttributeError] for [_update_potential] on every signal and leaves
    the synapse as it was.  For a class that supplies the methods,
    whatever they do to the synapse: a call returns only in two ways.
    Either both potentials were strictly above the threshold and the
    value is what [_generate_integrated_output] returned, or the value is
    the larger of the two potentials the synapse now holds, the creative
    one on a tie, and these are not both strictly above its threshold. *)
Theorem process_signal_outcome :
  forall (creative_input analytical_input : pyfloat),
    (forall self,
        BilateralSynapse.process_signal BilateralSynapse.as_written
          creative_input analytical_input self
        = (self, raise (AttributeError "_update_potential")))
    /\ (forall (cls : BilateralSynapse.Class) (self self' : BilateralSynapse.t)
               (v : pyfloat),
          BilateralSynapse.process_signal cls creative_input analytical_input
            self = (self', inr v) ->
          (exists generate s,
              BilateralSynapse._generate_integrated_output cls = Some generate
              /\ BilateralSynapse.integration_threshold s
                 < BilateralSynapse.creative_potential s
              /\ BilateralSynapse.integration_threshold s
                 < BilateralSynapse.analytical_potential s
              /\ generate s = (self', inr v))
          \/ (v = pymax (BilateralSynapse.creative_potential self')
                    (BilateralSynapse.analytical_potential self')
              /\ BilateralSynapse.creative_potential self' <= v
              /\ BilateralSynapse.analytical_potential self' <= v
              /\ (BilateralSynapse.analytical_potential self'
                  <= BilateralSynapse.creative_potential self' ->
                  v = BilateralSynapse.creative_potential self')
              /\ ~ (BilateralSynapse.integration_threshold self'
                    < BilateralSynapse.creative_potential self'
                    /\ BilateralSynapse.integration_threshold self'
                       < BilateralSynapse.analytical_potential self'))).
Proof.
  intros ci ai. split; [reflexivity|].
  intros cls self self' v. unfold BilateralSynapse.process_signal.
  destruct (BilateralSynapse._update_potential cls) as [update|];
    [|discriminate].
  destruct (update (BilateralSynapse.creative_potential self) ci self)
    as [s1 [e|v1]]; [discriminate|].
  set (s2 := BilateralSynapse.set_creative_potential v1 s1).
  destruct (update (BilateralSynapse.analytical_potential s2) ai s2)
    as [s3 [e|v2]]; [discriminate|].
  set (s4 := BilateralSynapse.set_analytical_potential v2 s3).
  destruct (gtb (BilateralSynapse.creative_potential s4)
              (BilateralSynapse.integration_threshold s4)) eqn:E1;
    destruct (gtb (BilateralSynapse.analytical_potential s4)
                (BilateralSynapse.integration_threshold s4)) eqn:E2;
    simpl;
    try (apply gtb_true in E1); try (apply gtb_false in E1);
    try (apply gtb_true in E2); try (apply gtb_false in E2).
  - destruct (BilateralSynapse._generate_integrated_output cls)
      as [generate|]; [|discriminate].
    intros Hgen. left. by exists generate, s4.
  - intros [= <- <-]. right.
    destruct (pymax_spec (BilateralSynapse.creative_potential s4)
                (BilateralSynapse.analytical_potential s4))
      as (H1 & H2 & _ & H4).
    repeat split; try assumption. intros [_ H]. lra.
  - intros [= <- <-]. right.
    destruct (pymax_spec (BilateralSynapse.creative_potential s4)
                (BilateralSynapse.analytical_potential s4))
      as (H1 & H2 & _ & H4).
    repeat split; try assumption. intros [H _]. lra.
  - intros [= <- <-]. right.
    destruct (pymax_spec (BilateralSynapse.creative_potential s4)
                (BilateralSynapse.analytical_potential s4))
      as (H1 & H2 & _ & H4).
    repeat split; try assumption. intros [H _]. lra.
Qed.

(** A synapse of a class that supplies the methods, on two signals:
    the first gives the stronger potential, the second integrates; the
    method's own writes to the activation pattern are kept. *)
Example leaky_two_signals :
  exists s1 s2 v1 v2,
    BilateralSynapse.process_signal leaky 1 0.5 BilateralSynapse.__init__
      = (s1, inr v1)
    /\ BilateralSynapse.process_signal leaky 0.5 1 s1 = (s2, inr v2)
    /\ v1 == 1 /\ v2 == 2.25
    /\ BilateralSynapse.activation_pattern s2 = [1; 0.5; 0.5; 1].
Proof.
  eexists _, _, _, _. split; [reflexivity|]. split; [reflexivity|].
  split; [reflexivity|]. split; reflexivity.
Qed.

Lemma process_signal_outcome_witness :
  exists self' v,
    BilateralSynapse.process_signal leaky 1 0.5 BilateralSynapse.__init__
      = (self', inr v)
    /\ v = pymax (BilateralSynapse.creative_potential self')
              (BilateralSynapse.analytical_potential self')
    /\ BilateralSynapse.analytical_potential self' <= v.
Proof.
  eexists _, _. split; [reflexivity|].
  destruct (proj2 (process_signal_outcome 1 0.5) leaky
              BilateralSynapse.__init__ _ _ eq_refl)
    as [(generate & s & _ & _ & _ & _)|(Hv & _ & Ha & _)].
  - split; [reflexivity | vm_compute; discriminate].
  - split; [exact Hv | exact Ha].
Defined.
